(** * A forward HTTP proxy with cache and rate limiter: model and properties

    Shallow embedding of [server/server.go].  The process-wide maps
    [cache] and [clients] are finite maps, every handler is a function in
    a small state-and-trace monad, and every call whose result depends on
    the outside world (URL parsing, the upstream round trip, the TCP dial,
    the connection takeover) reads its result from an environment record. *)

From Stdlib Require Import ZArith NArith Ascii String List Lia.
From stdpp Require Import gmap strings list fin_maps.
Import ListNotations.

(** ** Go strings

    A Go string is a sequence of bytes; it is a Rocq [string] here and
    [[]byte(s)] lists its bytes as numbers below 256. *)

Definition bytes_of_string (s : string) : list N :=
  map N_of_ascii (list_ascii_of_string s).

(** [strings.HasPrefix(s, prefix)] *)
Definition HasPrefix (s pre : string) : bool := String.prefix pre s.

(** ** crypto/sha1

    The digest of FIPS 180-4 on 32-bit words held in [N]; additions and
    left shifts are reduced modulo 2^32. *)

Module SHA1.

Definition w32 : N := 0x100000000.

Definition add32 (x y : N) : N := ((x + y) mod w32)%N.

Definition rotl (n x : N) : N :=
  N.lor (N.shiftl x n mod w32)%N (N.shiftr x (32 - n)).

Definition not32 (x : N) : N := N.lxor x 0xffffffff.

(** The chaining value h0..h4. *)
Record digest := Digest { h0 : N; h1 : N; h2 : N; h3 : N; h4 : N }.

Definition init : digest :=
  Digest 0x67452301 0xEFCDAB89 0x98BADCFE 0x10325476 0xC3D2E1F0.

Definition f (t : nat) (b c d : N) : N :=
  if (t <? 20)%nat then N.lor (N.land b c) (N.land (not32 b) d)
  else if (t <? 40)%nat then N.lxor (N.lxor b c) d
  else if (t <? 60)%nat then
    N.lor (N.lor (N.land b c) (N.land b d)) (N.land c d)
  else N.lxor (N.lxor b c) d.

Definition K (t : nat) : N :=
  if (t <? 20)%nat then 0x5A827999
  else if (t <? 40)%nat then 0x6ED9EBA1
  else if (t <? 60)%nat then 0x8F1BBCDC
  else 0xCA62C1D6.

(** Big-endian words of a block of bytes. *)
Fixpoint be_words (l : list N) : list N :=
  match l with
  | a :: b :: c :: d :: l' =>
      (N.shiftl a 24 + N.shiftl b 16 + N.shiftl c 8 + d)%N :: be_words l'
  | _ => []
  end.

(** The message schedule, most recent word first: [rw] holds
    w[t-1], w[t-2], ...; the next word is
    rotl 1 (w[t-3] xor w[t-8] xor w[t-14] xor w[t-16]). *)
Fixpoint schedule (n : nat) (rw : list N) : list N :=
  match n with
  | O => rw
  | S n' =>
      let x := N.lxor (N.lxor (nth 2 rw 0%N) (nth 7 rw 0%N))
                      (N.lxor (nth 13 rw 0%N) (nth 15 rw 0%N)) in
      schedule n' (rotl 1 x :: rw)
  end.

Fixpoint rounds (t : nat) (ws : list N) (a b c d e : N) : digest :=
  match ws with
  | [] => Digest a b c d e
  | w :: ws' =>
      let tmp := add32 (add32 (add32 (add32 (rotl 5 a) (f t b c d)) e) w) (K t) in
      rounds (S t) ws' tmp a (rotl 30 b) c d
  end.

(** One 64-byte block folded into the chaining value. *)
Definition block (h : digest) (blk : list N) : digest :=
  let ws := rev (schedule 64 (rev (be_words blk))) in
  let r := rounds 0 ws (h0 h) (h1 h) (h2 h) (h3 h) (h4 h) in
  Digest (add32 (h0 h) (h0 r)) (add32 (h1 h) (h1 r)) (add32 (h2 h) (h2 r))
         (add32 (h3 h) (h3 r)) (add32 (h4 h) (h4 r)).

(** Bytes are buffered (last one first in [buf]) until 64 are there;
    [k] counts the bytes still missing after the next one. *)
Fixpoint absorb (h : digest) (buf : list N) (k : nat) (l : list N) : digest :=
  match l with
  | [] => h
  | x :: l' =>
      match k with
      | O => absorb (block h (rev (x :: buf))) [] 63 l'
      | S k' => absorb h (x :: buf) k' l'
      end
  end.

Definition be_bytes (n : nat) (x : N) : list N :=
  map (fun i => (N.shiftr x (8 * N.of_nat i) mod 256)%N) (rev (seq 0 n)).

(** 0x80, zeros up to 56 modulo 64, then the bit length on 8 bytes. *)
Definition pad (msg : list N) : list N :=
  let len := length msg in
  let zeros := ((64 + 55 - len mod 64) mod 64)%nat in
  msg ++ [0x80%N] ++ repeat 0%N zeros ++ be_bytes 8 (8 * N.of_nat len).

Definition words (h : digest) : list N := [h0 h; h1 h; h2 h; h3 h; h4 h].

(** [h.Write(msg); h.Sum(nil)]: the 20 bytes of the digest. *)
Definition Sum (msg : list N) : list N :=
  flat_map (be_bytes 4) (words (absorb init [] 63 (pad msg))).

End SHA1.

(** ** fmt.Sprintf("%x", bytes): two lower-case hex digits per byte *)

Definition hexdigits : list ascii :=
  list_ascii_of_string "0123456789abcdef".

Definition hex_digit (n : N) : ascii :=
  nth (N.to_nat (n mod 16)) hexdigits "0"%char.

Definition hex_byte (b : N) : list ascii :=
  [hex_digit (b / 16); hex_digit b].

Definition Sprintf_x (bs : list N) : string :=
  string_of_list_ascii (flat_map hex_byte bs).

(** ** net/url

    The fields of [url.URL] that [String] prints.  [Path] and [Fragment]
    stand for the escaped forms returned by [EscapedPath] and
    [EscapedFragment], [User] for the printed user information, [Host] for
    the escaped host. *)

Record URL := mkURL {
  Scheme : string;
  Opaque : string;
  User : option string;
  Host : string;
  Path : string;
  OmitHost : bool;
  ForceQuery : bool;
  RawQuery : string;
  Fragment : string
}.

Definition nonempty (s : string) : bool :=
  match s with EmptyString => false | _ => true end.

Definition first_is_slash (s : string) : bool :=
  match s with String "/" _ => true | _ => false end.

(** [strings.Cut(path, "/")], first component. *)
Fixpoint first_segment (s : string) : string :=
  match s with
  | EmptyString => EmptyString
  | String "/" _ => EmptyString
  | String c s' => String c (first_segment s')
  end.

Fixpoint contains_colon (s : string) : bool :=
  match s with
  | EmptyString => false
  | String ":" _ => true
  | String _ s' => contains_colon s'
  end.

(** [URL.String]: scheme:opaque?query#fragment or
    scheme://userinfo@host/path?query#fragment. *)
Definition URL_String (u : URL) : string :=
  let scheme := if nonempty (Scheme u) then Scheme u +:+ ":" else "" in
  let body :=
    if nonempty (Opaque u) then scheme +:+ Opaque u
    else
      let authority :=
        if nonempty (Scheme u) || nonempty (Host u) || bool_decide (is_Some (User u)) then
          if OmitHost u && negb (nonempty (Host u)) && negb (bool_decide (is_Some (User u)))
          then ""
          else
            (if nonempty (Host u) || nonempty (Path u) || bool_decide (is_Some (User u))
             then "//" else "")
            +:+ match User u with Some ui => ui +:+ "@" | None => "" end
            +:+ Host u
        else "" in
      let buf := scheme +:+ authority in
      let buf :=
        if nonempty (Path u) && negb (first_is_slash (Path u)) && nonempty (Host u)
        then buf +:+ "/" else buf in
      let buf :=
        if negb (nonempty buf) && contains_colon (first_segment (Path u))
        then "./" else buf in
      buf +:+ Path u in
  let body :=
    if ForceQuery u || nonempty (RawQuery u) then body +:+ "?" +:+ RawQuery u
    else body in
  if nonempty (Fragment u) then body +:+ "#" +:+ Fragment u else body.

(** ** The cache key (server.go, [cacheKey]) *)

Definition cacheKey (u : URL) : string :=
  Sprintf_x (SHA1.Sum (bytes_of_string (URL_String u))).

Definition plain_url (host path query : string) : URL :=
  mkURL "http" "" None host path false false query "".

(** ** Machine integers

    Go's [int] on the platforms the server targets: 64 bits, two's
    complement, addition wraps. *)

Definition int_wrap (z : Z) : Z := ((z + 2 ^ 63) mod 2 ^ 64 - 2 ^ 63)%Z.
Definition int_add (a b : Z) : Z := int_wrap (a + b).

(** ** Results of fallible library calls *)

Inductive result (A : Type) : Type :=
| Ok (a : A)
| Err (msg : string).
Arguments Ok {A} a.
Arguments Err {A} msg.

(** ** Requests, responses and what the outside world answers *)

(** [http.Header] is a map from a key to its values. *)
Abbreviation Header := (gmap string (list string)).

(** [h.Add(key, value)]; keys are taken in their canonical form. *)
Definition Header_Add (key value : string) (h : Header) : Header :=
  <[key := default [] (h !! key) ++ [value]]> h.

(** [h.Set(key, value)] *)
Definition Header_Set (key value : string) (h : Header) : Header :=
  <[key := [value]]> h.

(** The two nested [range] loops that copy every value of every key of
    [src] with [Add]; the keys come in the order the map enumerates
    them. *)
Definition copy_values (key : string) (values : list string) (dst : Header) : Header :=
  foldl (fun acc value => Header_Add key value acc) dst values.

Definition copy_headers (src dst : Header) : Header :=
  map_fold copy_values dst src.

(** The inbound [*http.Request], as far as the handlers read it. *)
Record Request := mkRequest {
  r_Method : string;
  r_RequestURI : string;
  r_Host : string;
  r_RemoteAddr : string;
  r_URL_Path : string;
  r_URL_RawQuery : string;
  r_Header : Header;
  r_Body : string
}.

(** The outbound request, by what it is made from: the method, URL string
    and body given to [http.NewRequest] (which parses the string again
    and drops an empty port from its host), and the header map filled
    afterwards. *)
Record ProxyRequest := mkProxyRequest {
  p_Method : string;
  p_urlStr : string;
  p_Body : string;
  p_Header : Header
}.

(** The upstream [*http.Response]: [resp_Body] is what [io.ReadAll]
    returns for its body. *)
Record Response := mkResponse {
  StatusCode : Z;
  resp_Header : Header;
  resp_Body : result string
}.

(** What the library calls answer.  [url_Parse], [net_SplitHostPort] and
    [cleanPath] (the mux's [path.Clean] with a leading slash) are pure
    library functions left uninterpreted; the others depend on the network
    and on the connection behind the response writer.  A field named
    [..._err] holds the error of the call, [None] when it succeeds.
    [redirect_code] is the status with which the mux of the toolchain in
    use redirects to a cleaned path (301, or 307 in later ones), and
    [redirect_body] the short HTML body that [http.Redirect] writes for a
    GET request, as a function of the target. *)
Record Env := mkEnv {
  url_Parse : string -> result URL;
  http_NewRequest_err : string -> string -> option string;
  client_Do : ProxyRequest -> result Response;
  net_Dial_err : string -> option string;
  Hijack_err : option string;
  net_SplitHostPort : string -> result (string * string);
  cleanPath : string -> string;
  redirect_code : Z;
  redirect_body : string -> string
}.

(** ** Events

    What a handler does in order: lock operations, accesses to the two
    shared maps, log output, writes to the client, and network
    operations. *)

Inductive Mutex := cacheMutex | clientsMux | logFileMutex.

Global Instance Mutex_eq_dec : EqDecision Mutex.
Proof. solve_decision. Defined.

Inductive LogArg :=
| ArgS (s : string)
| ArgD (n : Z)
| ArgErr (msg : string)
| ArgElapsed.

Inductive Conn := destConn | clientConn.

Inductive Event :=
| EvLock (m : Mutex)
| EvUnlock (m : Mutex)
| EvCacheGet (key : string)
| EvCachePut (key : string) (body : string)
| EvClientsGet (ip : string)
| EvClientsPut (ip : string) (n : Z)
| EvClientsMake
| EvLogPrintf (format : string) (v : list LogArg)
| EvLogFileWrite (format : string) (v : list LogArg)
| EvWriteHeader (code : Z)
| EvWrite (b : string)
| EvClientDo (r : ProxyRequest)
| EvReadAll
| EvBodyClose
| EvDial (addr : string)
| EvHijack
| EvConnClose (c : Conn)
| EvGoCopy (dst src : Conn)
| EvCopy (dst src : Conn)
| EvSleep
| EvPanic (code : Z).

(** ** The response writer

    [rw_header] is the map [Header()] returns.  The first [WriteHeader]
    with a final status fixes the status and the headers that are sent
    ([rw_sent]); a later one is superfluous and changes nothing.  A first
    [WriteHeader] with a code outside 100..999 panics; one with a 1xx
    code other than 101 sends an informational response and fixes nothing
    (net/http's writer as of Go 1.19).  Headers that the server adds on
    its own (date, length, sniffed content type) are not part of
    [rw_sent].  [rw_hijacker] tells whether the writer's dynamic type
    implements [http.Hijacker]. *)

Record ResponseWriter := mkRW {
  rw_header : Header;
  rw_wroteHeader : bool;
  rw_status : Z;
  rw_sent : Header;
  rw_body : string;
  rw_hijacker : bool
}.

Definition fresh_writer (hijacker : bool) : ResponseWriter :=
  mkRW ∅ false 0 ∅ "" hijacker.

Definition rw_set_header (f : Header -> Header) (w : ResponseWriter) : ResponseWriter :=
  mkRW (f (rw_header w)) (rw_wroteHeader w) (rw_status w) (rw_sent w)
       (rw_body w) (rw_hijacker w).

(** [checkWriteHeaderCode]: the codes [WriteHeader] accepts. *)
Definition valid_code (code : Z) : bool := (100 <=? code)%Z && (code <=? 999)%Z.

Definition informational (code : Z) : bool :=
  (100 <=? code)%Z && (code <=? 199)%Z && negb (code =? 101)%Z.

(** What a [WriteHeader(code)] that returns leaves in the writer. *)
Definition rw_record (code : Z) (w : ResponseWriter) : ResponseWriter :=
  if rw_wroteHeader w then w
  else if informational code then w
  else mkRW (rw_header w) true code (rw_header w) (rw_body w) (rw_hijacker w).

(** [WriteHeader(code)]: a call after the header was written is
    superfluous and returns at once; otherwise the code is checked, and
    the call panics ([None]) on one outside 100..999. *)
Definition rw_WriteHeader (code : Z) (w : ResponseWriter) : option ResponseWriter :=
  if rw_wroteHeader w then Some w
  else if valid_code code then Some (rw_record code w)
  else None.

Definition StatusOK : Z := 200.
Definition StatusBadRequest : Z := 400.
Definition StatusNotFound : Z := 404.
Definition StatusTooManyRequests : Z := 429.
Definition StatusInternalServerError : Z := 500.
Definition StatusServiceUnavailable : Z := 503.

(** [Write(b)], with its implicit [WriteHeader(200)]. *)
Definition rw_Write (b : string) (w : ResponseWriter) : ResponseWriter :=
  let w := rw_record StatusOK w in
  mkRW (rw_header w) (rw_wroteHeader w) (rw_status w) (rw_sent w)
       (rw_body w +:+ b) (rw_hijacker w).

(** ** Process state and the handler monad *)

Record State := mkState {
  cache : gmap string string;
  clients : gmap string Z;
  logFile : bool;
  res : ResponseWriter
}.

Definition set_cache (c : gmap string string) (s : State) : State :=
  mkState c (clients s) (logFile s) (res s).
Definition set_clients (c : gmap string Z) (s : State) : State :=
  mkState (cache s) c (logFile s) (res s).
Definition set_res (w : ResponseWriter) (s : State) : State :=
  mkState (cache s) (clients s) (logFile s) w.

(** A computation reads and updates the state and appends to the trace of
    events. *)
Definition M (A : Type) : Type := State -> A * State * list Event.

Definition ret {A} (a : A) : M A := fun s => (a, s, []).

Definition bind {A B} (m : M A) (k : A -> M B) : M B :=
  fun s =>
    let '(a, s1, t1) := m s in
    let '(b, s2, t2) := k a s1 in
    (b, s2, t1 ++ t2).

Declare Scope proxy_scope.
Delimit Scope proxy_scope with proxy.
Notation "x <- m ;; k" := (bind m (fun x => k))
  (at level 100, m at next level, right associativity) : proxy_scope.
Notation "m ;;; k" := (bind m (fun _ => k))
  (at level 100, right associativity) : proxy_scope.
Local Open Scope proxy_scope.

Definition emit (e : Event) : M unit := fun s => (tt, s, [e]).
Definition gets {A} (f : State -> A) : M A := fun s => (f s, s, []).
Definition modify (f : State -> State) : M unit := fun s => (tt, f s, []).

Definition state_of {A} (r : A * State * list Event) : State := snd (fst r).
Definition trace_of {A} (r : A * State * list Event) : list Event := snd r.

Definition Lock (m : Mutex) : M unit := emit (EvLock m).
Definition Unlock (m : Mutex) : M unit := emit (EvUnlock m).

(** [cachedResp, found := cache[key]] *)
Definition cache_get (key : string) : M (option string) :=
  emit (EvCacheGet key) ;;; gets (fun s => cache s !! key).

(** [cache[key] = body] *)
Definition cache_put (key body : string) : M unit :=
  emit (EvCachePut key body) ;;; modify (fun s => set_cache (<[key := body]> (cache s)) s).

(** [count := clients[clientIP]]: the zero value when the key is absent. *)
Definition clients_get (ip : string) : M Z :=
  emit (EvClientsGet ip) ;;; gets (fun s => default 0%Z (clients s !! ip)).

(** [clients[clientIP] = n] *)
Definition clients_put (ip : string) (n : Z) : M unit :=
  emit (EvClientsPut ip n) ;;; modify (fun s => set_clients (<[ip := n]> (clients s)) s).

(** [res.Header().Set(key, value)]; updates of the header map are changes
    of the state only, not events. *)
Definition res_Header_Set (key value : string) : M unit :=
  modify (fun s => set_res (rw_set_header (Header_Set key value) (res s)) s).

(** [res.WriteHeader(code)]; the result tells whether the call returned.
    When it does not, nothing reaches the client and the event is
    [EvPanic code], for the panic with the message
    "invalid WriteHeader code" and the code. *)
Definition res_WriteHeader (code : Z) : M bool := fun s =>
  match rw_WriteHeader code (res s) with
  | Some w => (true, set_res w s, [EvWriteHeader code])
  | None => (false, s, [EvPanic code])
  end.

(** The server recovers a panic of the handler and closes the
    connection: the handler just ends. *)
Definition recovered (call : M bool) : M unit := _ <- call ;; ret tt.

Definition res_Write (b : string) : M unit :=
  emit (EvWrite b) ;;; modify (fun s => set_res (rw_Write b (res s)) s).

Definition nl : string := String "010"%char EmptyString.

(** [http.Error(w, error, code)]; the result tells whether it returned. *)
Definition http_Error (error : string) (code : Z) : M bool :=
  res_Header_Set "Content-Type" "text/plain; charset=utf-8" ;;;
  res_Header_Set "X-Content-Type-Options" "nosniff" ;;;
  ok <- res_WriteHeader code ;;
  if ok then res_Write (error +:+ nl) ;;; ret true else ret false.

(** ** server.go *)

Definition maxRequestsPerMinute : Z := 60.

(** [logEvent]: one line on the standard logger and, when the log file is
    set, the same line with a line terminator in the file, all under
    [logFileMutex] (released by the deferred [Unlock]). *)
Definition logEvent (format : string) (v : list LogArg) : M unit :=
  Lock logFileMutex ;;;
  emit (EvLogPrintf format v) ;;;
  (open <- gets logFile ;;
   if open then emit (EvLogFileWrite (format +:+ nl) v) else ret tt) ;;;
  Unlock logFileMutex.

Definition Handler : Type := Env -> Request -> M unit.

(** The two loops over [resp.Header] with [res.Header().Add]. *)
Definition res_copy_headers (src : Header) : M unit :=
  modify (fun s => set_res (rw_set_header (copy_headers src) (res s)) s).

(** [req.RequestURI] after the first statement of
    [handleRequestAndCache] has made it absolute. *)
Definition absolute_URI (req : Request) : string :=
  if negb (HasPrefix (r_RequestURI req) "http://")
     && negb (HasPrefix (r_RequestURI req) "https://")
  then "http://" +:+ r_Host req +:+ r_RequestURI req
  else r_RequestURI req.

(** The outbound request: the arguments of [http.NewRequest] and the
    header map that the two loops fill from the inbound headers. *)
Definition make_proxyReq (req : Request) (parsedURL : URL) : ProxyRequest :=
  mkProxyRequest (r_Method req) (URL_String parsedURL) (r_Body req)
                 (copy_headers (r_Header req) ∅).

(** The last part of [handleRequestAndCache], from the second
    [cacheMutex.Lock()] on: the store under its own lock, the copy of the
    upstream headers, and the relay.  [res.WriteHeader] gets the
    upstream's status code as it is; when it panics, nothing of what
    follows it runs but the deferred [resp.Body.Close()]. *)
Definition store_and_relay (RequestURI key : string) (resp : Response)
    (body : string) : M unit :=
  Lock cacheMutex ;;;
  cache_put key body ;;;
  Unlock cacheMutex ;;;
  res_copy_headers (resp_Header resp) ;;;
  ok <- res_WriteHeader (StatusCode resp) ;;
  (if ok then
     res_Write body ;;;
     logEvent ("Served %s in %v" +:+ nl) [ArgS RequestURI; ArgElapsed]
   else ret tt) ;;;
  emit EvBodyClose.

Definition handleRequestAndCache : Handler := fun env req =>
  (* start := time.Now() *)
  let RequestURI := absolute_URI req in
  match url_Parse env RequestURI with
  | Err _ => recovered (http_Error "Bad request" StatusBadRequest)
  | Ok parsedURL =>
    let key := cacheKey parsedURL in
    Lock cacheMutex ;;;
    found <- cache_get key ;;
    match found with
    | Some cachedResp =>
      Unlock cacheMutex ;;;
      logEvent "CACHE HIT: %s" [ArgS RequestURI] ;;;
      res_Write cachedResp ;;;
      logEvent ("Served %s in %v" +:+ nl) [ArgS RequestURI; ArgElapsed]
    | None =>
      Unlock cacheMutex ;;;
      match http_NewRequest_err env (r_Method req) (URL_String parsedURL) with
      | Some _ =>
        recovered (http_Error "Failed to create request" StatusInternalServerError)
      | None =>
        let proxyReq := make_proxyReq req parsedURL in
        emit (EvClientDo proxyReq) ;;;
        match client_Do env proxyReq with
        | Err err =>
          ok <- http_Error "Failed to forward request" StatusInternalServerError ;;
          if ok then
            logEvent "Failed to forward request: %s, error: %v"
                     [ArgS RequestURI; ArgErr err]
          else ret tt
        | Ok resp =>
          (* defer resp.Body.Close() *)
          emit EvReadAll ;;;
          match resp_Body resp with
          | Err err =>
            ok <- http_Error "Failed to read response body"
                             StatusInternalServerError ;;
            (if ok then
               logEvent "Failed to read response body: %s, error: %v"
                        [ArgS RequestURI; ArgErr err]
             else ret tt) ;;;
            emit EvBodyClose
          | Ok body => store_and_relay RequestURI key resp body
          end
        end
      end
    end
  end.

Definition handleConnect : Handler := fun env req =>
  emit (EvDial (r_Host req)) ;;;
  match net_Dial_err env (r_Host req) with
  | Some err =>
    returned <- http_Error "Failed to connect to destination"
                           StatusServiceUnavailable ;;
    if returned then
      logEvent "Failed to connect to destination: %s, error: %v"
               [ArgS (r_Host req); ArgErr err]
    else ret tt
  | None =>
    (* defer destConn.Close() *)
    returned <- res_WriteHeader StatusOK ;;
    (if returned then
       ok <- gets (fun s => rw_hijacker (res s)) ;;
       if negb ok then
         recovered (http_Error "Hijacking not supported" StatusInternalServerError)
       else
         emit EvHijack ;;;
         match Hijack_err env with
         | Some err =>
           returned <- http_Error "Failed to hijack connection"
                                  StatusServiceUnavailable ;;
           if returned then
             logEvent "Failed to hijack connection: %s, error: %v"
                      [ArgS (r_Host req); ArgErr err]
           else ret tt
         | None =>
           (* defer clientConn.Close() *)
           emit (EvGoCopy destConn clientConn) ;;;
           emit (EvCopy clientConn destConn) ;;;
           emit (EvConnClose clientConn)
         end
     else ret tt) ;;;
    emit (EvConnClose destConn)
  end.

Definition extractIP (env : Env) (remoteAddr : string) : string :=
  if contains_colon remoteAddr then
    match net_SplitHostPort env remoteAddr with
    | Err _ => remoteAddr
    | Ok (host, _) => host
    end
  else remoteAddr.

Definition rateLimiter (next : Handler) : Handler := fun env req =>
  let clientIP := extractIP env (r_RemoteAddr req) in
  Lock clientsMux ;;;
  count <- clients_get clientIP ;;
  logEvent "Client %s has made %d requests" [ArgS clientIP; ArgD count] ;;;
  if (count >=? maxRequestsPerMinute)%Z then
    Unlock clientsMux ;;;
    returned <- http_Error "Too Many Requests" StatusTooManyRequests ;;
    if returned then logEvent "Rate limit exceeded for client %s" [ArgS clientIP]
    else ret tt
  else
    clients_put clientIP (int_add count 1) ;;;
    Unlock clientsMux ;;;
    next env req.

(** One turn of the endless loop of [resetRateLimiter]. *)
Definition resetRateLimiter_turn : M unit :=
  emit EvSleep ;;;
  Lock clientsMux ;;;
  (emit EvClientsMake ;;; modify (set_clients ∅)) ;;;
  Unlock clientsMux.

(** [n] turns of the loop; the goroutine itself never returns. *)
Fixpoint resetRateLimiter (n : nat) : M unit :=
  match n with
  | O => ret tt
  | S n' => resetRateLimiter_turn ;;; resetRateLimiter n'
  end.

(** ** net/http's ServeMux, as [main] uses it

    [m] holds every registered pattern, [es] the patterns that end in a
    slash, longest first.  A path is matched exactly first, then against
    the longest subtree pattern that is a prefix of it.  Patterns carry no
    method: the request method never takes part in the choice of the
    handler. *)

Record muxEntry := mkEntry { pattern : string; h : Handler }.

Record ServeMux := mkMux { m : list muxEntry; es : list muxEntry }.

Fixpoint last_is_slash (s : string) : bool :=
  match s with
  | EmptyString => false
  | String c EmptyString => Ascii.eqb c "/"
  | String _ s' => last_is_slash s'
  end.

Fixpoint appendSorted (es : list muxEntry) (e : muxEntry) : list muxEntry :=
  match es with
  | [] => [e]
  | e' :: es' =>
      if (String.length (pattern e') <? String.length (pattern e))%nat
      then e :: e' :: es'
      else e' :: appendSorted es' e
  end.

Definition HandleFunc (pat : string) (handler : Handler) (mux : ServeMux) : ServeMux :=
  let e := mkEntry pat handler in
  mkMux (e :: m mux)
        (if last_is_slash pat then appendSorted (es mux) e else es mux).

Definition ServeMux_match (mux : ServeMux) (path : string) : option Handler :=
  match find (fun e => String.eqb (pattern e) path) (m mux) with
  | Some e => Some (h e)
  | None =>
      match find (fun e => HasPrefix path (pattern e)) (es mux) with
      | Some e => Some (h e)
      | None => None
      end
  end.

(** [http.NotFound] *)
Definition NotFoundHandler : Handler := fun _ _ =>
  recovered (http_Error "404 page not found" StatusNotFound).

(** Whether the header map of the writer has the key. *)
Definition has_header (key : string) (w : ResponseWriter) : bool :=
  match rw_header w !! key with Some _ => true | None => false end.

(** The target of the mux's redirect to a cleaned path: the string of
    [url.URL{Path: path, RawQuery: r.URL.RawQuery}]. *)
Definition redirect_target (path : string) (req : Request) : string :=
  URL_String (mkURL "" "" None "" path false false (r_URL_RawQuery req) "").

(** [http.RedirectHandler(target, code)] for the target made of [path]
    and the query of the request: [http.Redirect] sets the Location
    header (it cleans and escapes the target once more, which leaves a
    target made by the mux as it is), for a GET or HEAD without a content
    type it sets one, writes the status, and for a GET writes the short
    HTML body. *)
Definition RedirectHandler (path : string) : Handler := fun env req =>
  let target := redirect_target path req in
  hadCT <- gets (fun s => has_header "Content-Type" (res s)) ;;
  res_Header_Set "Location" target ;;;
  (if negb hadCT
      && (String.eqb (r_Method req) "GET" || String.eqb (r_Method req) "HEAD")
   then res_Header_Set "Content-Type" "text/html; charset=utf-8"
   else ret tt) ;;;
  returned <- res_WriteHeader (redirect_code env) ;;
  if returned && negb hadCT && String.eqb (r_Method req) "GET"
  then res_Write (redirect_body env target)
  else ret tt.

(** [mux.Handler(r)]: a CONNECT request is matched on its path as it
    stands; any other request is redirected to its cleaned path (with its
    query) when the two differ.  The redirect from /tree to /tree/
    needs a registered pattern /tree/ of at least two characters; [main]
    registers none. *)
Definition ServeMux_Handler (env : Env) (mux : ServeMux) (req : Request) : Handler :=
  if String.eqb (r_Method req) "CONNECT" then
    default NotFoundHandler (ServeMux_match mux (r_URL_Path req))
  else
    let path := cleanPath env (r_URL_Path req) in
    if negb (String.eqb path (r_URL_Path req)) then RedirectHandler path
    else default NotFoundHandler (ServeMux_match mux (r_URL_Path req)).

(** ** main *)

(** The two [http.HandleFunc] calls of [main]. *)
Definition DefaultServeMux : ServeMux :=
  HandleFunc "/CONNECT" (rateLimiter handleConnect)
    (HandleFunc "/" (rateLimiter handleRequestAndCache) (mkMux [] [])).

(** What the server runs for one request. *)
Definition ServeHTTP : Handler := fun env req =>
  ServeMux_Handler env DefaultServeMux req env req.

(** The process state when [ListenAndServe] starts: both maps are empty
    and the log file is open ([main] exits otherwise). *)
Definition initial_state (w : ResponseWriter) : State := mkState ∅ ∅ true w.

(** Running a handler on a fresh response writer, keeping the maps. *)
Definition serve (hd : Handler) (env : Env) (req : Request) (hijacker : bool)
    (s : State) : unit * State * list Event :=
  hd env req (set_res (fresh_writer hijacker) s).

(** ** Definitions used to state the properties *)

(** The statements of [rateLimiter] up to the call of [next]; the result
    tells whether that call is reached. *)
Definition rateLimiter_gate (env : Env) (req : Request) : M bool :=
  let clientIP := extractIP env (r_RemoteAddr req) in
  Lock clientsMux ;;;
  count <- clients_get clientIP ;;
  logEvent "Client %s has made %d requests" [ArgS clientIP; ArgD count] ;;;
  if (count >=? maxRequestsPerMinute)%Z then
    Unlock clientsMux ;;;
    returned <- http_Error "Too Many Requests" StatusTooManyRequests ;;
    (if returned then logEvent "Rate limit exceeded for client %s" [ArgS clientIP]
     else ret tt) ;;;
    ret false
  else
    clients_put clientIP (int_add count 1) ;;;
    Unlock clientsMux ;;;
    ret true.

(** The events of one [logEvent] call. *)
Definition log_trace (open : bool) (format : string) (v : list LogArg) : list Event :=
  [EvLock logFileMutex; EvLogPrintf format v]
  ++ (if open then [EvLogFileWrite (format +:+ nl) v] else [])
  ++ [EvUnlock logFileMutex].

(** The response written by [http.Error] on a writer. *)
Definition error_written (msg : string) (code : Z) (w : ResponseWriter) : ResponseWriter :=
  rw_Write (msg +:+ nl)
    (rw_record code
      (rw_set_header (Header_Set "X-Content-Type-Options" "nosniff")
        (rw_set_header (Header_Set "Content-Type" "text/plain; charset=utf-8") w))).

(** The current count of a client. *)
Definition count_of (s : State) (ip : string) : Z := default 0%Z (clients s !! ip).

Definition client_of (env : Env) (req : Request) : string :=
  extractIP env (r_RemoteAddr req).

(** The gate decisions for requests that arrive one after the other
    within one window, each on its own response writer. *)
Fixpoint admissions (env : Env) (reqs : list Request) (s : State) : list bool :=
  match reqs with
  | [] => []
  | req :: reqs' =>
      let '(ok, s', _) := rateLimiter_gate env req (set_res (fresh_writer true) s) in
      ok :: admissions env reqs' s'
  end.

(** How many requests of [reqs] come from [ip]. *)
Definition count_from (env : Env) (ip : string) (reqs : list Request) : nat :=
  length (filter (fun r => client_of env r = ip) reqs).

(** Every event that satisfies [q] comes after one that satisfies [p]. *)
Fixpoint precedes (p q : Event -> bool) (tr : list Event) : bool :=
  match tr with
  | [] => true
  | e :: tr' => if p e then true else if q e then false else precedes p q tr'
  end.

Definition is_CacheGet (e : Event) : bool :=
  match e with EvCacheGet _ => true | _ => false end.
Definition is_CachePut (e : Event) : bool :=
  match e with EvCachePut _ _ => true | _ => false end.
Definition is_ClientDo (e : Event) : bool :=
  match e with EvClientDo _ => true | _ => false end.
Definition is_ReadAll (e : Event) : bool :=
  match e with EvReadAll => true | _ => false end.
Definition is_client_write (e : Event) : bool :=
  match e with EvWriteHeader _ | EvWrite _ => true | _ => false end.
Definition is_relay (e : Event) : bool :=
  match e with EvHijack | EvGoCopy _ _ | EvCopy _ _ => true | _ => false end.
Definition is_Dial (e : Event) : bool :=
  match e with EvDial _ => true | _ => false end.
Definition is_Panic (e : Event) : bool :=
  match e with EvPanic _ => true | _ => false end.

Definition is_cache_access (e : Event) : bool :=
  match e with EvCacheGet _ | EvCachePut _ _ => true | _ => false end.
Definition is_clients_access (e : Event) : bool :=
  match e with EvClientsGet _ | EvClientsPut _ _ | EvClientsMake => true | _ => false end.
Definition is_map_access (e : Event) : bool :=
  is_cache_access e || is_clients_access e.
(** The events of a [logEvent] call. *)
Definition is_logging (e : Event) : bool :=
  match e with
  | EvLock logFileMutex | EvUnlock logFileMutex
  | EvLogPrintf _ _ | EvLogFileWrite _ _ => true
  | _ => false
  end.

(** The locks that guard the two maps. *)
Definition guards_map (mu : Mutex) : bool :=
  match mu with cacheMutex | clientsMux => true | logFileMutex => false end.

(** [sections allowed held tr] follows [tr] with the set [held] of the
    map locks currently taken: it fails on an event that a held lock does
    not allow, and answers the locks still held at the end. *)
Fixpoint sections (allowed : Mutex -> Event -> bool) (held : list Mutex)
    (tr : list Event) : option (list Mutex) :=
  match tr with
  | [] => Some held
  | e :: tr' =>
      match e with
      | EvLock mu =>
          if guards_map mu then sections allowed (mu :: held) tr'
          else if forallb (fun g => allowed g e) held
               then sections allowed held tr' else None
      | EvUnlock mu =>
          if guards_map mu
          then sections allowed (List.remove Mutex_eq_dec mu held) tr'
          else if forallb (fun g => allowed g e) held
               then sections allowed held tr' else None
      | _ => if forallb (fun g => allowed g e) held
             then sections allowed held tr' else None
      end
  end.

(** Every critical section of [tr] keeps to [allowed], and no map lock is
    held at the end. *)
Definition sections_ok (allowed : Mutex -> Event -> bool) (tr : list Event) : bool :=
  match sections allowed [] tr with
  | Some [] => true
  | _ => false
  end.

(** Map access only, as the specification words it. *)
Definition map_access_only (_ : Mutex) (e : Event) : bool := is_map_access e.

(** What the code keeps to: the cache lock covers cache accesses only, the
    counter lock covers counter accesses and logging. *)
Definition access_or_log (g : Mutex) (e : Event) : bool :=
  match g with
  | cacheMutex => is_cache_access e
  | clientsMux => is_clients_access e || is_logging e
  | logFileMutex => true
  end.

(** The steps of the process that touch the shared maps: a request served
    to its end, or one turn of the reset loop.  Each critical section is
    atomic and no handler touches [clients] outside the gate, so the maps
    evolve as under some sequence of such steps. *)
Inductive Op :=
| OpRequest (env : Env) (req : Request) (hijacker : bool)
| OpReset.

Definition exec (s : State) (o : Op) : State :=
  match o with
  | OpRequest env req hijacker => state_of (serve ServeHTTP env req hijacker s)
  | OpReset => state_of (resetRateLimiter_turn s)
  end.

Definition run (ops : list Op) (s : State) : State := foldl exec s ops.

(** The counters are machine integers no larger than the ceiling. *)
Definition counters_ok (c : gmap string Z) : Prop :=
  map_Forall (fun _ n => (- 2 ^ 63 <= n <= maxRequestsPerMinute)%Z) c.

(** All strings of length [n] over the alphabet [A]. *)
Fixpoint words_over (A : list ascii) (n : nat) : list string :=
  match n with
  | O => [EmptyString]
  | S n' => flat_map (fun a => map (String a) (words_over A n')) A
  end.

(** The ways a proxied request fails. *)
Inductive Failure := ParseFailure | TransportFailure | BodyReadFailure.

(** [fails env req s f]: the request meets failure [f] when it is handled
    from state [s]. *)
Definition fails (env : Env) (req : Request) (s : State) (f : Failure) : Prop :=
  match f with
  | ParseFailure => exists e, url_Parse env (absolute_URI req) = Err e
  | TransportFailure =>
      exists u e,
        url_Parse env (absolute_URI req) = Ok u
        /\ cache s !! cacheKey u = None
        /\ http_NewRequest_err env (r_Method req) (URL_String u) = None
        /\ client_Do env (make_proxyReq req u) = Err e
  | BodyReadFailure =>
      exists u resp e,
        url_Parse env (absolute_URI req) = Ok u
        /\ cache s !! cacheKey u = None
        /\ http_NewRequest_err env (r_Method req) (URL_String u) = None
        /\ client_Do env (make_proxyReq req u) = Ok resp
        /\ resp_Body resp = Err e
  end.

Definition failure_status (f : Failure) : Z :=
  match f with
  | ParseFailure => StatusBadRequest
  | TransportFailure | BodyReadFailure => StatusInternalServerError
  end.

Definition failure_message (f : Failure) : string :=
  match f with
  | ParseFailure => "Bad request"
  | TransportFailure => "Failed to forward request"
  | BodyReadFailure => "Failed to read response body"
  end.

(** How many times the upstream is contacted. *)
Definition dispatches (f : Failure) : nat :=
  match f with ParseFailure => 0 | TransportFailure | BodyReadFailure => 1 end.

(** The handler the mux picks for a path, by the two patterns of [main]. *)
Definition route (path : string) : Handler :=
  if String.eqb "/CONNECT" path then rateLimiter handleConnect
  else if HasPrefix path "/" then rateLimiter handleRequestAndCache
  else NotFoundHandler.

(** ** Sample inputs *)

Definition sample_url : URL := plain_url "example.com" "/" "".

(** The body of a redirect with 301, as [http.Redirect] writes it. *)
Definition quote : string := String "034"%char EmptyString.

Definition moved_body (target : string) : string :=
  "<a href=" +:+ quote +:+ target +:+ quote +:+ ">Moved Permanently</a>."
  +:+ nl +:+ nl.

Definition sample_resp : Response :=
  mkResponse 404 {[ "Content-Type" := ["text/html"] ]} (Ok "not here").

Definition sample_env : Env :=
  mkEnv (fun _ => Ok sample_url) (fun _ _ => None) (fun _ => Ok sample_resp)
        (fun _ => None) None (fun _ => Ok ("10.0.0.1", "4242")) (fun p => p)
        301 moved_body.

(** An upstream whose status line is [HTTP/1.1 042 Odd]: the HTTP client
    takes any three digits for a status and hands on the code 42. *)
Definition odd_resp : Response :=
  mkResponse 42 {[ "Content-Type" := ["text/html"] ]} (Ok "odd").

Definition odd_status_env : Env :=
  mkEnv (fun _ => Ok sample_url) (fun _ _ => None) (fun _ => Ok odd_resp)
        (fun _ => None) None (fun _ => Ok ("10.0.0.1", "4242")) (fun p => p)
        301 moved_body.

(** A request on a path that is not clean, with a query, and an
    environment of a toolchain whose mux redirects with 307. *)
Definition unclean_req : Request :=
  mkRequest "GET" "/a//b?x=1" "example.com" "10.0.0.1:4242" "/a//b" "x=1" ∅ "".

Definition cleaning_env : Env :=
  mkEnv (fun _ => Ok sample_url) (fun _ _ => None) (fun _ => Ok sample_resp)
        (fun _ => None) None (fun _ => Ok ("10.0.0.1", "4242"))
        (fun p => if String.eqb p "/a//b" then "/a/b" else p)
        307
        (fun target => "<a href=" +:+ quote +:+ target +:+ quote
                       +:+ ">Temporary Redirect</a>." +:+ nl +:+ nl).

(** An upstream that cannot be reached. *)
Definition unreachable_env : Env :=
  mkEnv (fun _ => Ok sample_url) (fun _ _ => None)
        (fun _ => Err "dial tcp: connection refused")
        (fun _ => Some "dial tcp: connection refused") None
        (fun _ => Ok ("10.0.0.1", "4242")) (fun p => p)
        301 moved_body.

Definition sample_req : Request :=
  mkRequest "GET" "http://example.com/" "example.com" "10.0.0.1:4242" "/" ""
            {[ "Accept" := ["*/*"] ]} "".

(** CONNECT example.com:443 HTTP/1.1: the target is an authority and the
    URL of the request has an empty path. *)
Definition connect_req : Request :=
  mkRequest "CONNECT" "example.com:443" "example.com:443" "10.0.0.1:4242" ""
            "" ∅ "".

(** CONNECT /x HTTP/1.1 *)
Definition connect_path_req : Request :=
  mkRequest "CONNECT" "/x" "example.com:443" "10.0.0.1:4242" "/x" "" ∅ "".

(** GET http://example.com/CONNECT HTTP/1.1 *)
Definition get_CONNECT_req : Request :=
  mkRequest "GET" "http://example.com/CONNECT" "example.com" "10.0.0.1:4242"
            "/CONNECT" "" ∅ "".

Definition start : State := initial_state (fresh_writer true).

(** The URL http://h/p *)
Definition path_url (p : string) : URL := plain_url "h" (String "/" p) "".

Definition binary : list ascii := ["0"; "1"]%char.

(** Two URLs that differ in one character of the query string. *)
Definition query_a : URL := plain_url "example.com" "/search" "q=a".
Definition query_b : URL := plain_url "example.com" "/search" "q=b".

(** Two URL values with one canonical string: [OmitHost] is not printed
    when the host is not empty. *)
Definition sample_url_omit : URL :=
  mkURL "http" "" None "example.com" "/" true false "" "".

(** A state in which the sample client is one request short of the
    ceiling, one in which it has reached it, and one whose cache holds a
    body for the sample URL. *)
Definition near_ceiling : State := set_clients {[ "10.0.0.1" := 59%Z ]} start.
Definition at_ceiling : State := set_clients {[ "10.0.0.1" := 60%Z ]} start.
Definition warm : State := set_cache {[ cacheKey sample_url := "cached body" ]} start.

(** ** Definitions used to state the further properties *)

Definition is_ConnClose (c : Conn) (e : Event) : bool :=
  match e, c with
  | EvConnClose destConn, destConn => true
  | EvConnClose clientConn, clientConn => true
  | _, _ => false
  end.
Definition is_BodyClose (e : Event) : bool :=
  match e with EvBodyClose => true | _ => false end.
Definition is_copy (e : Event) : bool :=
  match e with EvGoCopy _ _ | EvCopy _ _ => true | _ => false end.
Definition is_Hijack (e : Event) : bool :=
  match e with EvHijack => true | _ => false end.
Definition is_log (e : Event) : bool :=
  match e with EvLogPrintf _ _ | EvLogFileWrite _ _ => true | _ => false end.


(** What [handleRequestAndCache] does with the cache and the upstream. *)
Definition is_gateway_op (e : Event) : bool :=
  match e with
  | EvCacheGet _ | EvCachePut _ _ | EvClientDo _ | EvReadAll | EvBodyClose => true
  | _ => false
  end.

(** The operations on the cache and the upstream that a request is to
    cause, from what the outside world answers: the lookup once the URL
    is parsed; on a miss, and when the outbound request can be built, one
    dispatch; the body read when the round trip succeeded; the store of
    the body read when the read succeeded; the close of the body after a
    round trip that succeeded. *)
Definition gateway_ops (env : Env) (req : Request) (s : State) : list Event :=
  match url_Parse env (absolute_URI req) with
  | Err _ => []
  | Ok u =>
      EvCacheGet (cacheKey u) ::
      match cache s !! cacheKey u with
      | Some _ => []
      | None =>
          match http_NewRequest_err env (r_Method req) (URL_String u) with
          | Some _ => []
          | None =>
              EvClientDo (make_proxyReq req u) ::
              match client_Do env (make_proxyReq req u) with
              | Err _ => []
              | Ok resp =>
                  EvReadAll ::
                  match resp_Body resp with
                  | Err _ => [EvBodyClose]
                  | Ok body => [EvCachePut (cacheKey u) body; EvBodyClose]
                  end
              end
          end
      end
  end.

(** The trace ends with the close of the upstream body. *)
Definition ends_with_close (tr : list Event) : bool :=
  match last tr with Some EvBodyClose => true | _ => false end.

(** The lines that [logEvent] gives to the standard logger, and the lines
    written to the log file, in order.  (The report of a recovered panic,
    which the server writes to the standard logger once the handler has
    ended, is not an event of the handler's trace.) *)
Definition logger_lines (tr : list Event) : list (string * list LogArg) :=
  flat_map (fun e => match e with EvLogPrintf f v => [(f, v)] | _ => [] end) tr.
Definition file_lines (tr : list Event) : list (string * list LogArg) :=
  flat_map (fun e => match e with EvLogFileWrite f v => [(f, v)] | _ => [] end) tr.

(** The format of the timing line of [handleRequestAndCache]. *)
Definition served_format : string := "Served %s in %v" +:+ nl.

Definition timing_lines (tr : list Event) : list (string * list LogArg) :=
  List.filter (fun l => String.eqb (fst l) served_format) (logger_lines tr).

(** The request is answered from the cache, or fetched and relayed: the
    relay needs a status that [WriteHeader] accepts. *)
Definition succeeds (env : Env) (req : Request) (s : State) : Prop :=
  exists u,
    url_Parse env (absolute_URI req) = Ok u
    /\ (is_Some (cache s !! cacheKey u)
        \/ (cache s !! cacheKey u = None
            /\ http_NewRequest_err env (r_Method req) (URL_String u) = None
            /\ exists resp body,
                 client_Do env (make_proxyReq req u) = Ok resp
                 /\ resp_Body resp = Ok body
                 /\ valid_code (StatusCode resp) = true)).




(** The store of the count [n] for the client [ip]. *)
Definition is_count (ip : string) (n : Z) (e : Event) : bool :=
  match e with
  | EvClientsPut ip' n' => String.eqb ip' ip && (n' =? n)%Z
  | _ => false
  end.

(** What reaches the gate over time: a request, or the end of a window
    (one turn of the reset loop). *)
Inductive Arrival :=
| Arrives (req : Request)
| WindowEnds.

(** How many requests of client [ip] pass the gate along [l]. *)
Fixpoint passed (env : Env) (ip : string) (l : list Arrival) (s : State) : nat :=
  match l with
  | [] => 0
  | Arrives req :: l' =>
      let '(ok, s', _) := rateLimiter_gate env req (set_res (fresh_writer true) s) in
      ((if ok && bool_decide (client_of env req = ip) then 1 else 0)
       + passed env ip l' s')%nat
  | WindowEnds :: l' => passed env ip l' (state_of (resetRateLimiter_turn s))
  end.

Fixpoint window_ends (l : list Arrival) : nat :=
  match l with
  | [] => 0
  | Arrives _ :: l' => window_ends l'
  | WindowEnds :: l' => S (window_ends l')
  end.

Definition mutex_eqb (a b : Mutex) : bool :=
  match a, b with
  | cacheMutex, cacheMutex | clientsMux, clientsMux
  | logFileMutex, logFileMutex => true
  | _, _ => false
  end.

(** [lock_order held tr] follows the locks taken along [tr], innermost
    first in [held].  It fails when a lock is taken while it is held (Go's
    mutexes are not reentrant), when a lock other than [logFileMutex] is
    taken while some lock is held, when anything is taken under
    [logFileMutex], and when a lock is released that is not the innermost
    one held. *)
Fixpoint lock_order (held : list Mutex) (tr : list Event) : option (list Mutex) :=
  match tr with
  | [] => Some held
  | EvLock mu :: tr' =>
      match held with
      | [] => lock_order [mu] tr'
      | _ =>
          if mutex_eqb mu logFileMutex
             && negb (existsb (mutex_eqb logFileMutex) held)
          then lock_order (mu :: held) tr'
          else None
      end
  | EvUnlock mu :: tr' =>
      match held with
      | top :: held' => if mutex_eqb top mu then lock_order held' tr' else None
      | [] => None
      end
  | _ :: tr' => lock_order held tr'
  end.

(** The request with its [RequestURI] replaced. *)
Definition set_RequestURI (uri : string) (req : Request) : Request :=
  mkRequest (r_Method req) uri (r_Host req) (r_RemoteAddr req)
            (r_URL_Path req) (r_URL_RawQuery req) (r_Header req) (r_Body req).

(** A request that carries hop-by-hop headers. *)
Definition hop_req : Request :=
  mkRequest "POST" "http://example.com/" "example.com" "10.0.0.1:4242" "/" ""
            {[ "Connection" := ["keep-alive"]; "Accept" := ["text/html"; "*/*"];
               "X-Empty" := [] ]} "payload".


(** A second connection of the sample client, from another port, and an
    environment that splits both addresses. *)
Definition second_conn_req : Request :=
  mkRequest "GET" "http://example.com/" "example.com" "10.0.0.1:5353" "/" ""
            ∅ "".

Definition ports_env : Env :=
  mkEnv (fun _ => Ok sample_url) (fun _ _ => None) (fun _ => Ok sample_resp)
        (fun _ => None) None
        (fun addr =>
           if String.eqb addr "10.0.0.1:4242" then Ok ("10.0.0.1", "4242")
           else if String.eqb addr "10.0.0.1:5353" then Ok ("10.0.0.1", "5353")
           else Err "missing port in address")
        (fun p => p) 301 moved_body.

(** Environments in which request construction fails, the body read
    fails, the dial fails, and the takeover fails. *)
Definition no_request_env : Env :=
  mkEnv (fun _ => Ok sample_url) (fun _ _ => Some "net/http: invalid method")
        (fun _ => Ok sample_resp) (fun _ => None) None
        (fun _ => Ok ("10.0.0.1", "4242")) (fun p => p)
        301 moved_body.


Definition no_takeover_env : Env :=
  mkEnv (fun _ => Ok sample_url) (fun _ _ => None) (fun _ => Ok sample_resp)
        (fun _ => None) (Some "http: connection has been hijacked")
        (fun _ => Ok ("10.0.0.1", "4242")) (fun p => p)
        301 moved_body.

(** Reaching the cache or the network. *)
Definition is_reach (e : Event) : bool :=
  match e with
  | EvCacheGet _ | EvCachePut _ _ | EvClientDo _ | EvDial _ => true
  | _ => false
  end.

(** ** The load-generating client (the test program of the repository)

    [makeRequest] and the loop of its [main].  What [http.NewRequest],
    [url.Parse] and [client.Do] answer comes from an environment; the
    trace lists the calls in order, the deferred ones where they run. *)

Module Client.

Definition proxyURL : string := "http://localhost:8080".
Definition targetURL : string := "http://example.com".


Record World := mkWorld {
  NewRequest_err : option string;
  Parse_err : option string;
  Do : result string
}.

Inductive Step :=
| WgAdd (n : Z)
| WgDone
| WgWait
| Go (i : nat)
| Sleep (d : Z)
| NewRequest (method url : string)
| ParseProxy (url : string)
| ClientDo
| BodyClose
| Printf (format : string) (arg : string).

(** [makeRequest]; [wg.Done()] is deferred first and so runs last, the
    deferred [resp.Body.Close()] runs before it. *)
Definition makeRequest (w : World) : list Step :=
  (NewRequest "GET" targetURL ::
   match NewRequest_err w with
   | Some err => [Printf ("Error creating request: %v" +:+ nl) err]
   | None =>
       ParseProxy proxyURL ::
       match Parse_err w with
       | Some err => [Printf ("Error parsing proxy URL: %v" +:+ nl) err]
       | None =>
           ClientDo ::
           match Do w with
           | Err err => [Printf ("Request error: %v" +:+ nl) err]
           | Ok status =>
               [Printf ("Response status: %s" +:+ nl) status; BodyClose]
           end
       end
   end)
  ++ [WgDone].





Definition is_Done (e : Step) : bool :=
  match e with WgDone => true | _ => false end.
Definition is_BodyClose (e : Step) : bool :=
  match e with BodyClose => true | _ => false end.
Definition is_ClientDo (e : Step) : bool :=
  match e with ClientDo => true | _ => false end.
Definition is_Printf (e : Step) : bool :=
  match e with Printf _ _ => true | _ => false end.


(** The response was obtained. *)
Definition answered (w : World) : bool :=
  match NewRequest_err w, Parse_err w, Do w with
  | None, None, Ok _ => true
  | _, _, _ => false
  end.

End Client.

(** * Properties *)

Example sha1_abc :
  Sprintf_x (SHA1.Sum (bytes_of_string "abc"))
  = "a9993e364706816aba3e25717850c26c9cd0d89d".
Proof. vm_compute. reflexivity. Qed.

Example sha1_empty :
  Sprintf_x (SHA1.Sum (bytes_of_string ""))
  = "da39a3ee5e6b4b0d3255bfef95601890afd80709".
Proof. vm_compute. reflexivity. Qed.

Example sha1_two_blocks :
  Sprintf_x (SHA1.Sum (bytes_of_string
    "abcdbcdecdefdefgefghfghighijhijkijkljklmklmnlmnomnopnopq"))
  = "84983e441c3bd26ebaae4aa1f95129e5e54670f1".
Proof. vm_compute. reflexivity. Qed.

Example URL_String_example :
  URL_String (plain_url "example.com" "/a" "x=1") = "http://example.com/a?x=1".
Proof. reflexivity. Qed.


(** ** The cache key *)

Lemma length_string_of_list_ascii l :
  String.length (string_of_list_ascii l) = length l.
Proof. induction l as [|c l IH]; cbn; [reflexivity|]. rewrite IH. reflexivity. Qed.

Lemma be_bytes_length n x : length (SHA1.be_bytes n x) = n.
Proof. unfold SHA1.be_bytes. rewrite length_map, length_rev, length_seq. reflexivity. Qed.

Lemma Sum_length msg : length (SHA1.Sum msg) = 20.
Proof.
  unfold SHA1.Sum, SHA1.words.
  generalize (SHA1.absorb SHA1.init [] 63 (SHA1.pad msg)). intros d.
  cbn [flat_map]. rewrite !length_app, !be_bytes_length. reflexivity.
Qed.

Lemma hex_bytes_length bs : length (flat_map hex_byte bs) = 2 * length bs.
Proof. induction bs as [|b bs IH]; cbn [flat_map length app hex_byte]; lia. Qed.

Lemma hex_digit_in n : In (hex_digit n) hexdigits.
Proof.
  unfold hex_digit. apply nth_In.
  change (length hexdigits) with 16.
  pose proof (N.mod_lt n 16). lia.
Qed.

Lemma hex_bytes_digits bs : Forall (fun c => In c hexdigits) (flat_map hex_byte bs).
Proof.
  induction bs as [|b bs IH]; cbn [flat_map hex_byte app].
  - constructor.
  - constructor; [apply hex_digit_in|].
    constructor; [apply hex_digit_in|]. exact IH.
Qed.

Lemma cacheKey_length u : String.length (cacheKey u) = 40.
Proof.
  unfold cacheKey, Sprintf_x.
  rewrite length_string_of_list_ascii, hex_bytes_length, Sum_length. reflexivity.
Qed.

Lemma cacheKey_digits u :
  Forall (fun c => In c hexdigits) (list_ascii_of_string (cacheKey u)).
Proof.
  unfold cacheKey, Sprintf_x.
  rewrite list_ascii_of_string_of_list_ascii. apply hex_bytes_digits.
Qed.

Lemma length_flat_map_const {A B} (f : A -> list B) (l : list A) k :
  (forall a, length (f a) = k) -> length (flat_map f l) = length l * k.
Proof.
  intros Hf. induction l as [|a l IH]; cbn [flat_map length]; [reflexivity|].
  rewrite length_app, Hf, IH. lia.
Qed.

Lemma words_over_length A n : length (words_over A n) = length A ^ n.
Proof.
  induction n as [|n IH]; [reflexivity|].
  cbn [words_over]. rewrite (length_flat_map_const _ _ (length (words_over A n))).
  - rewrite IH. cbn [Nat.pow]. reflexivity.
  - intros a. apply length_map.
Qed.

Lemma words_over_complete A n : forall s,
  String.length s = n ->
  Forall (fun c => In c A) (list_ascii_of_string s) ->
  In s (words_over A n).
Proof.
  induction n as [|n IH]; intros s Hlen Hall.
  - destruct s; [left; reflexivity|discriminate].
  - destruct s as [|c s]; [discriminate|].
    cbn in Hlen. injection Hlen as Hlen. cbn in Hall.
    apply Forall_cons_iff in Hall as [Hc Hs].
    cbn [words_over]. apply in_flat_map. exists c. split; [exact Hc|].
    apply in_map, IH; assumption.
Qed.

Lemma NoDup_prepend_each (A : list ascii) (W : list string) :
  NoDup A -> NoDup W -> NoDup (flat_map (fun a => map (String a) W) A).
Proof.
  intros HA HW. induction HA as [|a A Ha HA IHA]; cbn [flat_map].
  - constructor.
  - apply NoDup_app. split; [|split].
    + apply NoDup_fmap_2; [|exact HW]. intros x y Hxy. congruence.
    + intros s Hs Hs'. apply list_elem_of_In in Hs, Hs'.
      apply in_map_iff in Hs as (s1 & <- & _).
      apply in_flat_map in Hs' as (b & Hb & Hs').
      apply in_map_iff in Hs' as (s2 & Heq & _).
      injection Heq as -> _. apply Ha, list_elem_of_In, Hb.
    + exact IHA.
Qed.

Lemma words_over_NoDup A n : NoDup A -> NoDup (words_over A n).
Proof.
  intros HA. induction n as [|n IH].
  - cbn. apply NoDup_singleton.
  - cbn [words_over]. apply NoDup_prepend_each; assumption.
Qed.

Lemma NoDup_map_on {A B} (f : A -> B) l :
  NoDup l ->
  (forall x y, In x l -> In y l -> x <> y -> f x <> f y) ->
  NoDup (map f l).
Proof.
  induction 1 as [|a l Ha Hl IH]; intros Hf; cbn [map].
  - constructor.
  - constructor.
    + intros Hin. apply list_elem_of_In, in_map_iff in Hin as (b & Heq & Hb).
      apply (Hf b a); [right; exact Hb|left; reflexivity| |exact Heq].
      intros ->. apply Ha, list_elem_of_In, Hb.
    + apply IH. intros x y Hx Hy. apply Hf; right; assumption.
Qed.

Lemma pow16 n : 16 ^ n = 2 ^ (4 * n).
Proof. rewrite Nat.pow_mul_r. reflexivity. Qed.

Lemma URL_String_path_url p : URL_String (path_url p) = ("http://h/" +:+ p).
Proof. reflexivity. Qed.

Lemma path_url_inj p q : URL_String (path_url p) = URL_String (path_url q) -> p = q.
Proof. rewrite !URL_String_path_url. cbn. intros H. injection H. auto. Qed.

Lemma cacheKey_collides_among n :
  16 ^ 40 < 2 ^ n ->
  ~ (forall p q, In p (words_over binary n) -> In q (words_over binary n) ->
       URL_String (path_url p) <> URL_String (path_url q) ->
       cacheKey (path_url p) <> cacheKey (path_url q)).
Proof.
  intros Hlt Hinj.
  assert (Hnd : NoDup (map (fun p => cacheKey (path_url p)) (words_over binary n))).
  { apply NoDup_map_on.
    - apply words_over_NoDup. repeat constructor; cbn.
      + intros H. apply list_elem_of_In in H. destruct H as [H|[]]. discriminate.
      + intros H. apply list_elem_of_In in H. destruct H.
    - intros p q Hp Hq Hne. apply Hinj; [assumption..|].
      intros Heq. apply Hne, path_url_inj, Heq. }
  assert (Hincl : incl (map (fun p => cacheKey (path_url p)) (words_over binary n))
                       (words_over hexdigits 40)).
  { intros k Hk. apply in_map_iff in Hk as (p & <- & _).
    apply words_over_complete; [apply cacheKey_length|apply cacheKey_digits]. }
  apply NoDup_ListNoDup in Hnd.
  pose proof (NoDup_incl_length Hnd Hincl) as Hle.
  rewrite length_map, !words_over_length in Hle.
  change (length binary) with 2 in Hle. change (length hexdigits) with 16 in Hle.
  apply (Nat.lt_irrefl (16 ^ 40)). eapply Nat.lt_le_trans; eassumption.
Qed.

(** C5, as stated, fails: were distinct canonical strings always mapped to
    distinct keys, the 2^161 URLs http://h/p with p a string of 161 binary
    digits would have 2^161 distinct keys among the 16^40 = 2^160 strings
    of 40 hex digits. *)
Lemma cacheKey_not_injective :
  ~ (forall u1 u2 : URL, URL_String u1 <> URL_String u2 -> cacheKey u1 <> cacheKey u2).
Proof.
  intros Hinj. apply (cacheKey_collides_among 161).
  - rewrite pow16. apply Nat.pow_lt_mono_r; lia.
  - intros p q _ _. apply Hinj.
Qed.

(** C5.  [cacheKey] is a function of the canonical string of the URL: URLs
    with equal canonical strings have equal keys, and every key is a
    string of 40 lower-case hex digits.  Distinct URLs need not have
    distinct keys; the URLs
    http://example.com/search?q=a and http://example.com/search?q=b, which
    differ in one character of the query string, do. *)
Theorem cacheKey_deterministic_fixed_length :
  (forall u1 u2 : URL, URL_String u1 = URL_String u2 -> cacheKey u1 = cacheKey u2)
  /\ (forall u : URL, String.length (cacheKey u) = 40)
  /\ (forall u : URL,
        Forall (fun c => In c hexdigits) (list_ascii_of_string (cacheKey u)))
  /\ cacheKey query_a <> cacheKey query_b.
Proof.
  split; [|split; [|split]].
  - intros u1 u2 Heq. unfold cacheKey. rewrite Heq. reflexivity.
  - apply cacheKey_length.
  - apply cacheKey_digits.
  - vm_compute. discriminate.
Qed.

(** ** Running the primitives *)

Local Arguments logEvent : simpl never.
Local Arguments cacheKey : simpl never.
Local Arguments int_add : simpl never.
Local Arguments copy_headers : simpl never.
Local Arguments URL_String : simpl never.
Local Arguments String.append : simpl never.
Local Arguments Z.geb : simpl never.
Local Arguments absolute_URI : simpl never.
Local Arguments make_proxyReq : simpl never.
Local Arguments extractIP : simpl never.
Local Arguments String.eqb : simpl never.
Local Arguments HasPrefix : simpl never.

Local Arguments rw_WriteHeader : simpl never.

Ltac prims :=
  unfold bind, Lock, Unlock, clients_get, clients_put, cache_get, cache_put,
    recovered, http_Error, res_Header_Set, res_WriteHeader,
    res_Write, res_copy_headers, emit, gets, modify, ret.

(** [WriteHeader] in the form in which a constant code decides the call. *)
Lemma rw_WriteHeader_eq code w :
  rw_WriteHeader code w
  = if valid_code code || rw_wroteHeader w then Some (rw_record code w) else None.
Proof.
  unfold rw_WriteHeader, rw_record.
  destruct (rw_wroteHeader w), (valid_code code); reflexivity.
Qed.

Lemma logEvent_run format v s :
  logEvent format v s = (tt, s, log_trace (logFile s) format v).
Proof.
  unfold logEvent, log_trace. prims. cbn.
  destruct (logFile s); reflexivity.
Qed.

Ltac run_handler :=
  prims; cbn;
  repeat (progress (rewrite ?logEvent_run, ?rw_WriteHeader_eq, ?orb_false_r); cbn);
  unfold state_of, trace_of, set_res, set_cache, set_clients; cbn.

Lemma int_add_one (c : Z) :
  (- 2 ^ 63 <= c < maxRequestsPerMinute)%Z -> int_add c 1 = (c + 1)%Z.
Proof.
  unfold int_add, int_wrap, maxRequestsPerMinute. intros Hc.
  rewrite Z.mod_small; lia.
Qed.

(** ** The rate limiter *)

Lemma informational_valid code :
  informational code = true -> valid_code code = true.
Proof. unfold informational, valid_code. lia. Qed.

Lemma error_written_status msg code w :
  rw_wroteHeader w = false -> informational code = false ->
  rw_status (error_written msg code w) = code.
Proof.
  intros Hw Hi. unfold error_written, rw_Write, rw_record, rw_set_header.
  cbn. rewrite Hw, Hi. reflexivity.
Qed.

Lemma error_written_body msg code w :
  rw_body (error_written msg code w) = rw_body w +:+ (msg +:+ nl).
Proof.
  unfold error_written, rw_Write, rw_record, rw_set_header. cbn.
  destruct (rw_wroteHeader w); [|destruct (informational code)]; reflexivity.
Qed.

Lemma rateLimiter_split next env req s :
  rateLimiter next env req s =
  (ok <- rateLimiter_gate env req ;; if ok then next env req else ret tt) s.
Proof.
  unfold rateLimiter, rateLimiter_gate. run_handler.
  destruct (_ >=? _)%Z; run_handler.
  - destruct (logFile s); reflexivity.
  - destruct (next env req _) as [[u s'] t]. destruct (logFile s); reflexivity.
Qed.

Lemma gate_below env req s :
  (- 2 ^ 63 <= count_of s (client_of env req) < maxRequestsPerMinute)%Z ->
  let r := rateLimiter_gate env req s in
  fst (fst r) = true
  /\ clients (state_of r)
     = <[client_of env req := (count_of s (client_of env req) + 1)%Z]> (clients s)
  /\ cache (state_of r) = cache s
  /\ res (state_of r) = res s
  /\ logFile (state_of r) = logFile s.
Proof.
  intros Hc. pose proof (int_add_one _ Hc) as Hadd.
  unfold count_of, client_of in *.
  unfold rateLimiter_gate. run_handler.
  destruct (Z.geb_spec (default 0%Z (clients s !! extractIP env (r_RemoteAddr req)))
              maxRequestsPerMinute) as [Hge|Hlt]; [lia|].
  run_handler. rewrite Hadd. auto.
Qed.

Lemma gate_at_ceiling env req s :
  (maxRequestsPerMinute <= count_of s (client_of env req))%Z ->
  let r := rateLimiter_gate env req s in
  fst (fst r) = false
  /\ clients (state_of r) = clients s
  /\ cache (state_of r) = cache s
  /\ res (state_of r) = error_written "Too Many Requests" StatusTooManyRequests (res s)
  /\ logFile (state_of r) = logFile s.
Proof.
  intros Hc. unfold count_of, client_of in *.
  unfold rateLimiter_gate. run_handler.
  destruct (Z.geb_spec (default 0%Z (clients s !! extractIP env (r_RemoteAddr req)))
              maxRequestsPerMinute) as [Hge|Hlt]; [|lia].
  run_handler. auto.
Qed.

Lemma gate_decision env req s :
  let c := count_of s (client_of env req) in
  let r := rateLimiter_gate env req s in
  fst (fst r) = negb (c >=? maxRequestsPerMinute)%Z
  /\ clients (state_of r)
     = if (c >=? maxRequestsPerMinute)%Z then clients s
       else <[client_of env req := int_add c 1]> (clients s).
Proof.
  unfold count_of, client_of, rateLimiter_gate. run_handler.
  destruct (_ >=? _)%Z; run_handler; auto.
Qed.

Lemma count_of_set_res w s ip : count_of (set_res w s) ip = count_of s ip.
Proof. reflexivity. Qed.

(** Counts between zero and the ceiling stay there through the gate, and
    the count of the requesting client moves up by one when it is let
    through. *)
Lemma gate_count env req s ip :
  (forall i, 0 <= count_of s i <= maxRequestsPerMinute)%Z ->
  let s' := state_of (rateLimiter_gate env req s) in
  (forall i, 0 <= count_of s' i <= maxRequestsPerMinute)%Z
  /\ count_of s' ip
     = (count_of s ip
        + if bool_decide (client_of env req = ip)
             && negb (count_of s ip >=? maxRequestsPerMinute)%Z
          then 1 else 0)%Z.
Proof.
  intros Hinv. cbn zeta.
  destruct (gate_decision env req s) as [_ Hcl]. cbn zeta in Hcl.
  set (s' := state_of (rateLimiter_gate env req s)) in *. clearbody s'.
  pose proof (Hinv (client_of env req)) as Hc.
  destruct (Z.geb_spec (count_of s (client_of env req)) maxRequestsPerMinute)
    as [Hge|Hlt].
  - assert (Hs' : forall i, count_of s' i = count_of s i)
      by (intros i; unfold count_of; rewrite Hcl; reflexivity).
    split; [intros i; rewrite Hs'; apply Hinv|].
    rewrite Hs'. case_bool_decide as Hip; cbn; [subst ip|lia].
    destruct (Z.geb_spec (count_of s (client_of env req)) maxRequestsPerMinute);
      cbn; lia.
  - rewrite int_add_one in Hcl by (unfold maxRequestsPerMinute in *; lia).
    assert (Hsame : count_of s' (client_of env req)
                    = (count_of s (client_of env req) + 1)%Z)
      by (unfold count_of at 1; rewrite Hcl, lookup_insert_eq; reflexivity).
    assert (Hother : forall i, client_of env req <> i -> count_of s' i = count_of s i)
      by (intros i Hne; unfold count_of; rewrite Hcl, lookup_insert_ne by done;
          reflexivity).
    split.
    + intros i. destruct (decide (client_of env req = i)) as [<-|Hne].
      * rewrite Hsame. lia.
      * rewrite Hother by done. apply Hinv.
    + case_bool_decide as Hip; cbn.
      * subst ip. rewrite Hsame.
        destruct (Z.geb_spec (count_of s (client_of env req)) maxRequestsPerMinute);
          cbn; lia.
      * rewrite Hother by done. lia.
Qed.

Lemma count_from_cons env ip r reqs :
  count_from env ip (r :: reqs)
  = ((if bool_decide (client_of env r = ip) then 1 else 0) + count_from env ip reqs)%nat.
Proof.
  unfold count_from. rewrite filter_cons.
  destruct (decide (client_of env r = ip)) as [He|Hne].
  - rewrite bool_decide_eq_true_2 by done. reflexivity.
  - rewrite bool_decide_eq_false_2 by done. reflexivity.
Qed.

(** Within a window a request is let through exactly when fewer than the
    ceiling came from its client before it. *)
Lemma admissions_lookup env pre : forall req post s,
  (forall i, 0 <= count_of s i <= maxRequestsPerMinute)%Z ->
  admissions env (pre ++ req :: post) s !! length pre
  = Some (bool_decide
            (count_of s (client_of env req)
             + Z.of_nat (count_from env (client_of env req) pre)
             < maxRequestsPerMinute)%Z).
Proof.
  induction pre as [|r pre IH]; intros req post s Hinv.
  - cbn [app length admissions].
    destruct (rateLimiter_gate env req (set_res (fresh_writer true) s))
      as [[ok s'] t] eqn:E.
    pose proof (gate_decision env req (set_res (fresh_writer true) s)) as [Hok _].
    rewrite E in Hok. cbn in Hok. rewrite count_of_set_res in Hok.
    cbn. f_equal. rewrite Hok. unfold count_from. cbn.
    destruct (Z.geb_spec (count_of s (client_of env req)) maxRequestsPerMinute);
      cbn; symmetry; [apply bool_decide_eq_false_2|apply bool_decide_eq_true_2]; lia.
  - cbn [app length admissions].
    destruct (rateLimiter_gate env r (set_res (fresh_writer true) s))
      as [[ok s'] t] eqn:E.
    pose proof (gate_count env r (set_res (fresh_writer true) s)
                  (client_of env req) Hinv) as [Hinv' Hcnt].
    rewrite E in Hinv', Hcnt. unfold state_of in Hinv', Hcnt. cbn in Hinv', Hcnt.
    rewrite count_of_set_res in Hcnt.
    transitivity (admissions env (pre ++ req :: post) s' !! length pre);
      [reflexivity|].
    rewrite (IH req post s' Hinv'). f_equal.
    rewrite Hcnt, count_from_cons.
    pose proof (Hinv (client_of env req)) as Hc.
    apply bool_decide_ext.
    case_bool_decide; cbn;
      destruct (Z.geb_spec (count_of s (client_of env req)) maxRequestsPerMinute);
      cbn; unfold maxRequestsPerMinute in *; lia.
Qed.

(** C2.  [rateLimiter] lets a request through exactly when the count of
    its client is below the ceiling of 60.  A request let through sets the
    count to one more and only then runs the downstream handler, on the
    state with the new count.  A request that finds the count at or above
    60 is answered 429 Too Many Requests, leaves every count as it was and
    does not run the downstream handler.  From the start of a window a
    request is let through exactly when fewer than 60 requests of its
    client came before it, so the first 60 of a client are let through and
    the next ones are not. *)
Theorem rateLimiter_admits_up_to_ceiling
    (next : Handler) (env : Env) (req : Request) (s : State) :
  let ip := client_of env req in
  let count := count_of s ip in
  let admitted := bool_decide (count < maxRequestsPerMinute)%Z in
  let gate := rateLimiter_gate env req s in
  (- 2 ^ 63 <= count)%Z ->
  fst (fst gate) = admitted
  /\ clients (state_of gate)
     = (if admitted then <[ip := (count + 1)%Z]> (clients s) else clients s)
  /\ count_of (state_of gate) ip = (if admitted then count + 1 else count)%Z
  /\ rateLimiter next env req s
     = (if admitted
        then let '(u, s', t) := next env req (state_of gate) in
             (u, s', trace_of gate ++ t)
        else (tt, state_of gate, trace_of gate))
  /\ res (state_of gate)
     = (if admitted then res s
        else error_written "Too Many Requests" StatusTooManyRequests (res s))
  /\ (forall hijacker,
        rw_status (res (state_of
          (rateLimiter_gate env req (set_res (fresh_writer hijacker) s))))
        = if admitted then 0%Z else StatusTooManyRequests)
  /\ (forall pre post,
        admissions env (pre ++ req :: post) (set_clients ∅ s) !! length pre
        = Some (bool_decide (count_from env ip pre < 60)%nat)).
Proof.
  intros ip count admitted gate Hlo.
  assert (Hwin : forall pre post,
    admissions env (pre ++ req :: post) (set_clients ∅ s) !! length pre
    = Some (bool_decide (count_from env ip pre < 60)%nat)).
  { intros pre post. unfold ip. rewrite admissions_lookup.
    - f_equal. apply bool_decide_ext. unfold count_of, maxRequestsPerMinute.
      cbn. rewrite lookup_empty. cbn. lia.
    - intros i. unfold count_of, maxRequestsPerMinute. cbn.
      rewrite lookup_empty. cbn. lia. }
  pose proof (rateLimiter_split next env req s) as Hsplit.
  unfold bind in Hsplit. fold gate in Hsplit.
  subst admitted. case_bool_decide as Hc.
  - destruct (gate_below env req s) as (Hok & Hcl & _ & Hres & _);
      [exact (conj Hlo Hc)|].
    fold ip in Hcl. fold count in Hcl. fold gate in Hok, Hcl, Hres.
    repeat split; try assumption.
    + unfold count_of at 1. rewrite Hcl, lookup_insert_eq. reflexivity.
    + rewrite Hsplit. unfold state_of, trace_of.
      destruct gate as [[ok s1] t1]. cbn in Hok. subst ok. reflexivity.
    + intros hijacker.
      destruct (gate_below env req (set_res (fresh_writer hijacker) s))
        as (_ & _ & _ & Hres' & _); [exact (conj Hlo Hc)|].
      cbn zeta in Hres'. rewrite Hres'. reflexivity.
  - assert (Hge : (maxRequestsPerMinute <= count)%Z) by lia.
    destruct (gate_at_ceiling env req s) as (Hok & Hcl & _ & Hres & _);
      [exact Hge|].
    fold gate in Hok, Hcl, Hres.
    repeat split; try assumption.
    + unfold count_of at 1. rewrite Hcl. reflexivity.
    + rewrite Hsplit. unfold state_of, trace_of.
      destruct gate as [[ok s1] t1]. cbn in Hok. subst ok.
      cbn. rewrite app_nil_r. reflexivity.
    + intros hijacker.
      destruct (gate_at_ceiling env req (set_res (fresh_writer hijacker) s))
        as (_ & _ & _ & Hres' & _); [exact Hge|].
      cbn zeta in Hres'. rewrite Hres'. reflexivity.
Qed.

(** ** Copying headers *)

Lemma copy_values_lookup key values : forall (dst : Header) j,
  copy_values key values dst !! j
  = if decide (key = j)
    then match values with
         | [] => dst !! j
         | _ => Some (default [] (dst !! j) ++ values)
         end
    else dst !! j.
Proof.
  unfold copy_values.
  induction values as [|v values IH]; intros dst j; cbn [foldl].
  - destruct (decide (key = j)); reflexivity.
  - rewrite IH. unfold Header_Add.
    destruct (decide (key = j)) as [->|Hne].
    + rewrite lookup_insert_eq. cbn.
      destruct values; [reflexivity|]. rewrite <- app_assoc. reflexivity.
    + rewrite lookup_insert_ne by done. reflexivity.
Qed.

(** After the copy a key of the source holds its former values followed by
    the source's; a key the source lacks, or holds without values, is
    untouched. *)
Lemma copy_headers_lookup (src dst : Header) j :
  copy_headers src dst !! j
  = match src !! j with
    | Some (v :: vs) => Some (default [] (dst !! j) ++ v :: vs)
    | _ => dst !! j
    end.
Proof.
  unfold copy_headers. revert j.
  apply (map_fold_weak_ind
    (fun (r : Header) (mp : Header) => forall j,
       r !! j = match mp !! j with
                | Some (v :: vs) => Some (default [] (dst !! j) ++ v :: vs)
                | _ => dst !! j
                end)).
  - intros j. rewrite lookup_empty. reflexivity.
  - intros i x mp r Hi IH j. rewrite copy_values_lookup.
    destruct (decide (i = j)) as [->|Hne].
    + rewrite lookup_insert_eq. rewrite IH, Hi. destruct x; reflexivity.
    + rewrite lookup_insert_ne by done. apply IH.
Qed.

Lemma copy_headers_fresh (src : Header) j :
  copy_headers src ∅ !! j
  = match src !! j with
    | Some (v :: vs) => Some (v :: vs)
    | _ => None
    end.
Proof.
  rewrite copy_headers_lookup, lookup_empty.
  destruct (src !! j) as [[|v vs]|]; reflexivity.
Qed.

(** ** The proxy gateway *)

(** C3.  When the digest of the request's URL is in the cache at lookup
    time, the stored bytes are what the client receives, as they are, with
    the default status 200; no header is set on the response, the upstream
    is not contacted, and the cache and the counters are left as they
    were. *)
Theorem cache_hit_serves_stored_body
    (env : Env) (req : Request) (hijacker : bool) (s : State)
    (u : URL) (stored : string) :
  url_Parse env (absolute_URI req) = Ok u ->
  cache s !! cacheKey u = Some stored ->
  let r := serve handleRequestAndCache env req hijacker s in
  rw_body (res (state_of r)) = stored
  /\ rw_status (res (state_of r)) = StatusOK
  /\ rw_wroteHeader (res (state_of r)) = true
  /\ rw_sent (res (state_of r)) = ∅
  /\ rw_header (res (state_of r)) = ∅
  /\ existsb is_ClientDo (trace_of r) = false
  /\ existsb is_ReadAll (trace_of r) = false
  /\ existsb is_CachePut (trace_of r) = false
  /\ List.filter is_client_write (trace_of r) = [EvWrite stored]
  /\ cache (state_of r) = cache s
  /\ clients (state_of r) = clients s.
Proof.
  intros Hparse Hhit. unfold serve, handleRequestAndCache.
  rewrite Hparse. run_handler. rewrite Hhit. run_handler.
  destruct (logFile s); cbn; repeat split; reflexivity.
Qed.

(** C4.  On a cache miss with a successful upstream round trip and body
    read, the handler goes on with [store_and_relay]: the body is stored
    under the request's digest in a critical section of its own, which
    replaces whatever the digest holds by then, also what another request
    stored there since the lookup.  The cache lookup comes before the
    dispatch, and the body is read before the cache is written and before
    anything is written to the client.  When the upstream's status is a
    code that [WriteHeader] accepts (100 to 999) and is final, the
    upstream headers are the headers sent to the client, and the upstream
    status and the body are what the client receives.  When the status is
    outside 100..999 (the HTTP client hands on a status line with the
    digits 000 to 099 as it is), [res.WriteHeader] panics after the body
    was stored: no status, header or body reaches the client and nothing
    is logged, while the digest now holds the body.  A status 1xx other
    than 101, which the transport does not hand on, would be sent as an
    interim response and followed by the body under the status 200. *)
Theorem cache_miss_stores_and_relays_accepted_status
    (env : Env) (req : Request) (hijacker : bool) (s : State)
    (u : URL) (resp : Response) (body : string) :
  url_Parse env (absolute_URI req) = Ok u ->
  cache s !! cacheKey u = None ->
  http_NewRequest_err env (r_Method req) (URL_String u) = None ->
  client_Do env (make_proxyReq req u) = Ok resp ->
  resp_Body resp = Ok body ->
  let r := serve handleRequestAndCache env req hijacker s in
  let code := StatusCode resp in
  let tail := store_and_relay (absolute_URI req) (cacheKey u) resp body
                (set_res (fresh_writer hijacker) s) in
  r = (tt, state_of tail,
       [EvLock cacheMutex; EvCacheGet (cacheKey u); EvUnlock cacheMutex;
        EvClientDo (make_proxyReq req u); EvReadAll] ++ trace_of tail)
  /\ (forall uri key resp' body' s1,
        cache (state_of (store_and_relay uri key resp' body' s1))
        = <[key := body']> (cache s1))
  /\ cache (state_of r) = <[cacheKey u := body]> (cache s)
  /\ existsb is_CacheGet (trace_of r) = true
  /\ List.filter is_ClientDo (trace_of r) = [EvClientDo (make_proxyReq req u)]
  /\ precedes is_CacheGet is_ClientDo (trace_of r) = true
  /\ precedes is_ClientDo is_ReadAll (trace_of r) = true
  /\ precedes is_ReadAll is_CachePut (trace_of r) = true
  /\ precedes is_ReadAll is_client_write (trace_of r) = true
  /\ List.filter is_CachePut (trace_of r) = [EvCachePut (cacheKey u) body]
  /\ (valid_code code = true -> informational code = false ->
        rw_status (res (state_of r)) = code
        /\ rw_body (res (state_of r)) = body
        /\ (forall key,
              rw_sent (res (state_of r)) !! key
              = match resp_Header resp !! key with
                | Some (v :: vs) => Some (v :: vs)
                | _ => None
                end)
        /\ List.filter is_client_write (trace_of r)
           = [EvWriteHeader code; EvWrite body]
        /\ existsb is_Panic (trace_of r) = false)
  /\ (valid_code code = false ->
        rw_wroteHeader (res (state_of r)) = false
        /\ rw_body (res (state_of r)) = EmptyString
        /\ rw_sent (res (state_of r)) = ∅
        /\ List.filter is_client_write (trace_of r) = []
        /\ List.filter is_Panic (trace_of r) = [EvPanic code]
        /\ logger_lines (trace_of r) = []
        /\ last (trace_of r) = Some EvBodyClose)
  /\ (informational code = true ->
        rw_status (res (state_of r)) = StatusOK
        /\ rw_body (res (state_of r)) = body
        /\ List.filter is_client_write (trace_of r)
           = [EvWriteHeader code; EvWrite body]).
Proof.
  intros Hparse Hmiss Hnew Hdo Hbody. cbn zeta.
  assert (Hrun : serve handleRequestAndCache env req hijacker s
    = (tt, state_of (store_and_relay (absolute_URI req) (cacheKey u) resp body
                       (set_res (fresh_writer hijacker) s)),
       [EvLock cacheMutex; EvCacheGet (cacheKey u); EvUnlock cacheMutex;
        EvClientDo (make_proxyReq req u); EvReadAll]
       ++ trace_of (store_and_relay (absolute_URI req) (cacheKey u) resp body
                      (set_res (fresh_writer hijacker) s)))).
  { unfold serve, handleRequestAndCache.
    rewrite Hparse. run_handler. rewrite Hmiss. run_handler.
    rewrite Hnew. run_handler. rewrite Hdo. run_handler.
    rewrite Hbody. unfold store_and_relay. run_handler.
    destruct (valid_code (StatusCode resp)); run_handler;
      destruct (logFile s); reflexivity. }
  split; [exact Hrun|].
  split.
  { intros uri key resp' body' s1. unfold store_and_relay.
    run_handler. destruct (valid_code _ || _); run_handler; reflexivity. }
  rewrite Hrun. unfold store_and_relay. run_handler.
  unfold rw_record. cbn.
  pose proof (informational_valid (StatusCode resp)) as Hiv.
  destruct (valid_code (StatusCode resp)) eqn:Hv;
    destruct (informational (StatusCode resp)) eqn:Hi;
    try (specialize (Hiv eq_refl); discriminate);
    run_handler; destruct (logFile s); cbn;
    repeat split; try reflexivity; try discriminate;
    intros; try discriminate; repeat split; try reflexivity.
  all: intros; apply copy_headers_fresh.
Qed.

Ltac case_step :=
  match goal with
  | |- context [match ?x with _ => _ end] =>
      lazymatch x with
      | context [match _ with _ => _ end] => fail
      | _ => destruct x eqn:?
      end
  end.

Ltac run_all := repeat (run_handler; try case_step).

Lemma handleRequestAndCache_keeps env req s :
  let r := handleRequestAndCache env req s in
  clients (state_of r) = clients s /\ logFile (state_of r) = logFile s.
Proof. unfold handleRequestAndCache. run_all; auto. Qed.

Lemma handleConnect_keeps env req s :
  let r := handleConnect env req s in
  clients (state_of r) = clients s
  /\ logFile (state_of r) = logFile s
  /\ cache (state_of r) = cache s.
Proof. unfold handleConnect. run_all; auto. Qed.

(** C6.  A request let through the gate that fails on URL parsing is
    answered 400, one that fails on the upstream round trip or on reading
    the upstream body is answered 500; in each case handling ends there,
    the cache is what it was, the counters differ only by the increment
    made at the gate, and the upstream is contacted at most once (not at
    all on a parse failure). *)
Theorem failed_request_leaves_cache_untouched
    (env : Env) (req : Request) (hijacker : bool) (s : State) (f : Failure) :
  let ip := client_of env req in
  (- 2 ^ 63 <= count_of s ip < maxRequestsPerMinute)%Z ->
  fails env req s f ->
  let r := serve (rateLimiter handleRequestAndCache) env req hijacker s in
  rw_status (res (state_of r)) = failure_status f
  /\ rw_body (res (state_of r)) = failure_message f +:+ nl
  /\ cache (state_of r) = cache s
  /\ clients (state_of r) = <[ip := (count_of s ip + 1)%Z]> (clients s)
  /\ length (List.filter is_ClientDo (trace_of r)) = dispatches f
  /\ existsb is_CachePut (trace_of r) = false.
Proof.
  intros ip Hcount Hfails r. subst r ip.
  pose proof (int_add_one _ Hcount) as Hadd.
  unfold count_of, client_of in *. unfold serve, rateLimiter. run_handler.
  destruct (Z.geb_spec (default 0%Z (clients s !! extractIP env (r_RemoteAddr req)))
              maxRequestsPerMinute) as [Hge|_]; [lia|].
  run_handler. rewrite Hadd. unfold handleRequestAndCache.
  destruct f; cbn [fails] in Hfails.
  - destruct Hfails as [e Hparse]. rewrite Hparse. run_handler.
    destruct (logFile s); cbn; repeat split; reflexivity.
  - destruct Hfails as (u & e & Hparse & Hmiss & Hnew & Hdo).
    rewrite Hparse. run_handler. rewrite Hmiss. run_handler.
    rewrite Hnew. run_handler. rewrite Hdo. run_handler.
    destruct (logFile s); cbn; repeat split; reflexivity.
  - destruct Hfails as (u & resp & e & Hparse & Hmiss & Hnew & Hdo & Hbody).
    rewrite Hparse. run_handler. rewrite Hmiss. run_handler.
    rewrite Hnew. run_handler. rewrite Hdo. run_handler.
    rewrite Hbody. run_handler.
    destruct (logFile s); cbn; repeat split; reflexivity.
Qed.

(** ** The tunnel handler *)

(** C7.  What [handleConnect] does when the dial succeeds and the response
    writer cannot be taken over: status 200 has been written before the
    check, so the status the client receives is 200; the later 500 of
    [http.Error] is superfluous and only its text reaches the body.  No
    takeover and no copy loop is started. *)
Theorem connect_unsupported_takeover_answers_200
    (env : Env) (req : Request) (s : State) :
  net_Dial_err env (r_Host req) = None ->
  let r := serve handleConnect env req false s in
  rw_status (res (state_of r)) = StatusOK
  /\ rw_status (res (state_of r)) <> StatusInternalServerError
  /\ rw_body (res (state_of r)) = "Hijacking not supported" +:+ nl
  /\ rw_sent (res (state_of r)) = ∅
  /\ List.filter is_client_write (trace_of r)
     = [EvWriteHeader StatusOK; EvWriteHeader StatusInternalServerError;
        EvWrite ("Hijacking not supported" +:+ nl)]
  /\ existsb is_relay (trace_of r) = false.
Proof.
  intros Hdial. unfold serve, handleConnect. rewrite Hdial. run_handler.
  repeat split; try reflexivity. discriminate.
Qed.

(** ** The window reset *)

Lemma resetRateLimiter_clears n : forall s,
  clients (state_of (resetRateLimiter (S n) s)) = ∅.
Proof.
  induction n as [|n IH]; intros s.
  - reflexivity.
  - change (resetRateLimiter (S (S n)) s)
      with ((resetRateLimiter_turn ;;; resetRateLimiter (S n)) s).
    unfold bind.
    destruct (resetRateLimiter_turn s) as [[u s1] t1].
    specialize (IH s1).
    destruct (resetRateLimiter (S n) s1) as [[u2 s2] t2].
    exact IH.
Qed.

(** C8.  One turn of the reset loop replaces the counter map by an empty
    one between one [Lock] and one [Unlock] of [clientsMux]: afterwards no
    client has an entry and every count reads zero, whatever the counts
    were; nothing else changes.  The next request of any client, also of
    one that had reached the ceiling, passes the gate. *)
Theorem reset_clears_every_counter (s : State) :
  let r := resetRateLimiter_turn s in
  clients (state_of r) = ∅
  /\ (forall ip, clients (state_of r) !! ip = None)
  /\ (forall ip, count_of (state_of r) ip = 0%Z)
  /\ trace_of r = [EvSleep; EvLock clientsMux; EvClientsMake; EvUnlock clientsMux]
  /\ cache (state_of r) = cache s
  /\ res (state_of r) = res s
  /\ (forall n, clients (state_of (resetRateLimiter (S n) s)) = ∅)
  /\ (forall env req,
        fst (fst (rateLimiter_gate env req (state_of r))) = true
        /\ count_of (state_of (rateLimiter_gate env req (state_of r)))
                    (client_of env req) = 1%Z).
Proof.
  split; [reflexivity|].
  split; [intros ip; apply lookup_empty|].
  split; [intros ip; reflexivity|].
  split; [reflexivity|].
  split; [reflexivity|].
  split; [reflexivity|].
  split; [intros n; apply resetRateLimiter_clears|].
  intros env req.
  destruct (gate_below env req (state_of (resetRateLimiter_turn s)))
    as (Hok & Hcl & _).
  { unfold count_of, maxRequestsPerMinute. cbn. rewrite lookup_empty. cbn. lia. }
  split; [exact Hok|].
  unfold count_of at 1. rewrite Hcl, lookup_insert_eq. reflexivity.
Qed.

(** ** Dispatch *)

Lemma ServeMux_match_route path :
  default NotFoundHandler (ServeMux_match DefaultServeMux path) = route path.
Proof.
  unfold ServeMux_match, DefaultServeMux, HandleFunc, route. cbn.
  destruct (String.eqb "/CONNECT" path) eqn:E1; cbn; [reflexivity|].
  destruct (String.eqb "/" path) eqn:E2; cbn.
  - apply String.eqb_eq in E2. subst path. reflexivity.
  - destruct (HasPrefix path "/"); reflexivity.
Qed.

Lemma ServeHTTP_route env req :
  ServeHTTP env req
  = if String.eqb (r_Method req) "CONNECT" then route (r_URL_Path req) env req
    else if negb (String.eqb (cleanPath env (r_URL_Path req)) (r_URL_Path req))
         then RedirectHandler (cleanPath env (r_URL_Path req)) env req
         else route (r_URL_Path req) env req.
Proof.
  unfold ServeHTTP, ServeMux_Handler.
  rewrite ServeMux_match_route.
  destruct (String.eqb (r_Method req) "CONNECT"); [reflexivity|].
  destruct (negb _); reflexivity.
Qed.

(** C1.  How the server picks the handler: by the path of the request URL
    alone.  A path equal to /CONNECT goes to [handleConnect] whatever the
    method, any other path that starts with a slash goes to
    [handleRequestAndCache] whatever the method, and a CONNECT request in
    its usual form, whose URL has an empty path, reaches neither: it is
    answered 404 and no connection is dialled. *)
Theorem dispatch_is_by_path_not_method (env : Env) :
  (forall req,
     ServeHTTP env req
     = if String.eqb (r_Method req) "CONNECT" then route (r_URL_Path req) env req
       else if negb (String.eqb (cleanPath env (r_URL_Path req)) (r_URL_Path req))
            then RedirectHandler (cleanPath env (r_URL_Path req)) env req
            else route (r_URL_Path req) env req)
  /\ ServeHTTP env connect_req = NotFoundHandler env connect_req
  /\ (forall hijacker s,
        let r := serve ServeHTTP env connect_req hijacker s in
        rw_status (res (state_of r)) = StatusNotFound
        /\ existsb is_Dial (trace_of r) = false
        /\ clients (state_of r) = clients s)
  /\ ServeHTTP env connect_path_req
     = rateLimiter handleRequestAndCache env connect_path_req
  /\ ServeHTTP env get_CONNECT_req
     = if String.eqb (cleanPath env "/CONNECT") "/CONNECT"
       then rateLimiter handleConnect env get_CONNECT_req
       else RedirectHandler (cleanPath env "/CONNECT") env get_CONNECT_req.
Proof.
  pose proof (ServeHTTP_route env) as Hgen.
  split; [exact Hgen|].
  split; [rewrite Hgen; reflexivity|].
  split.
  { intros hijacker s r. subst r. unfold serve. rewrite Hgen.
    cbn. unfold NotFoundHandler. run_handler. auto. }
  split; [rewrite Hgen; reflexivity|].
  rewrite Hgen. cbn.
  destruct (String.eqb (cleanPath env "/CONNECT") "/CONNECT"); reflexivity.
Qed.

(** ** The counters stay within the ceiling *)

Lemma counters_ok_count c ip :
  counters_ok c ->
  (- 2 ^ 63 <= default 0 (c !! ip) <= maxRequestsPerMinute)%Z.
Proof.
  intros Hok. destruct (c !! ip) as [n|] eqn:E; cbn.
  - exact (Hok ip n E).
  - unfold maxRequestsPerMinute. lia.
Qed.

Lemma gate_counters_ok env req s :
  counters_ok (clients s) ->
  counters_ok (clients (state_of (rateLimiter_gate env req s))).
Proof.
  intros Hok. destruct (gate_decision env req s) as [_ Hcl].
  cbn zeta in Hcl. rewrite Hcl.
  pose proof (counters_ok_count _ (client_of env req) Hok) as Hc.
  fold (count_of s (client_of env req)) in Hc.
  destruct (Z.geb_spec (count_of s (client_of env req)) maxRequestsPerMinute)
    as [Hge|Hlt]; [exact Hok|].
  apply map_Forall_insert_2; [|exact Hok].
  rewrite int_add_one by lia. lia.
Qed.

Lemma rateLimiter_counters_ok (next : Handler) env req s :
  (forall s1, clients (state_of (next env req s1)) = clients s1) ->
  counters_ok (clients s) ->
  counters_ok (clients (state_of (rateLimiter next env req s))).
Proof.
  intros Hnext Hok. rewrite rateLimiter_split. unfold bind.
  pose proof (gate_counters_ok env req s Hok) as Hgate.
  destruct (rateLimiter_gate env req s) as [[ok s1] t1].
  unfold state_of in Hgate. cbn in Hgate.
  destruct ok.
  - specialize (Hnext s1). destruct (next env req s1) as [[u s2] t2].
    unfold state_of in *. cbn in *. rewrite Hnext. exact Hgate.
  - exact Hgate.
Qed.

Lemma RedirectHandler_keeps path env req s :
  let r := RedirectHandler path env req s in
  clients (state_of r) = clients s /\ cache (state_of r) = cache s
  /\ logFile (state_of r) = logFile s.
Proof.
  unfold RedirectHandler. run_handler.
  destruct (negb _ && _); run_handler;
    (destruct (valid_code _ || _); run_handler;
     [destruct (negb _ && _); run_handler|]); auto.
Qed.

Lemma exec_counters_ok s o :
  counters_ok (clients s) -> counters_ok (clients (exec s o)).
Proof.
  intros Hok. destruct o as [env req hijacker|]; cbn [exec].
  - unfold serve. rewrite ServeHTTP_route.
    set (s0 := set_res (fresh_writer hijacker) s).
    assert (Hok0 : counters_ok (clients s0)) by exact Hok.
    assert (Hroute : counters_ok (clients (state_of (route (r_URL_Path req) env req s0)))).
    { unfold route.
      destruct (String.eqb "/CONNECT" (r_URL_Path req)).
      - apply rateLimiter_counters_ok; [|exact Hok0].
        intros s1. apply handleConnect_keeps.
      - destruct (HasPrefix (r_URL_Path req) "/").
        + apply rateLimiter_counters_ok; [|exact Hok0].
          intros s1. apply handleRequestAndCache_keeps.
        + exact Hok0. }
    destruct (String.eqb (r_Method req) "CONNECT"); [exact Hroute|].
    destruct (negb _); [|exact Hroute].
    destruct (RedirectHandler_keeps (cleanPath env (r_URL_Path req)) env req s0)
      as [Hcl _].
    cbn zeta in Hcl. rewrite Hcl. exact Hok0.
  - apply map_Forall_empty.
Qed.

Lemma run_counters_ok ops : forall s,
  counters_ok (clients s) -> counters_ok (clients (run ops s)).
Proof.
  unfold run. induction ops as [|o ops IH]; intros s Hok; cbn [foldl].
  - exact Hok.
  - apply IH, exec_counters_ok, Hok.
Qed.

(** C10.  No stored count ever exceeds 60.  The property holds of the
    empty map the process starts with, and every step keeps it: a request
    creates or increments an entry only when the count read is below 60,
    a rejected request writes nothing, and the reset empties the map. *)
Theorem counters_never_exceed_ceiling (ops : list Op) (s : State) :
  counters_ok (clients s) ->
  counters_ok (clients (run ops s))
  /\ (forall ip n, clients (run ops s) !! ip = Some n -> (n <= 60)%Z)
  /\ (forall ip, (count_of (run ops s) ip <= 60)%Z)
  /\ (forall env req,
        counters_ok (clients (state_of (rateLimiter_gate env req (run ops s)))))
  /\ counters_ok (clients (state_of (resetRateLimiter_turn (run ops s))))
  /\ counters_ok (clients start).
Proof.
  intros Hok. pose proof (run_counters_ok ops s Hok) as Hrun.
  split; [exact Hrun|].
  split; [intros ip n Hn; apply (Hrun ip n Hn)|].
  split; [intros ip; apply (counters_ok_count _ ip Hrun)|].
  split; [intros env req; apply gate_counters_ok, Hrun|].
  split; apply map_Forall_empty.
Qed.

(** ** What happens while a map lock is held *)

Lemma served_sections_ok env req hijacker s :
  sections_ok access_or_log (trace_of (serve ServeHTTP env req hijacker s)) = true.
Proof.
  unfold serve. rewrite ServeHTTP_route. unfold route.
  destruct (String.eqb (r_Method req) "CONNECT");
    [|destruct (negb _)];
    try destruct (String.eqb "/CONNECT" (r_URL_Path req));
    try destruct (HasPrefix (r_URL_Path req) "/");
    unfold rateLimiter, handleRequestAndCache, handleConnect, NotFoundHandler,
      RedirectHandler;
    run_all; reflexivity.
Qed.

(** C9, as stated, fails: [rateLimiter] calls [logEvent] between the
    [Lock] and the [Unlock] of [clientsMux]. *)
Lemma log_inside_counter_lock :
  sections_ok map_access_only
    (trace_of (serve ServeHTTP sample_env sample_req true start)) = false
  /\ firstn 4 (trace_of (serve ServeHTTP sample_env sample_req true start))
     = [EvLock clientsMux; EvClientsGet "10.0.0.1"; EvLock logFileMutex;
        EvLogPrintf "Client %s has made %d requests" [ArgS "10.0.0.1"; ArgD 0]].
Proof. split; vm_compute; reflexivity. Qed.

(** C9.  While [cacheMutex] is held the only events are accesses to the
    cache map.  While [clientsMux] is held the only events are accesses to
    the counter map and the logging of [logEvent]; no response is written,
    nothing is sent on the network and the downstream handler does not run
    under either lock.  The handlers by themselves, and the reset, do map
    accesses only while a map lock is held; every lock taken is
    released. *)
Theorem critical_sections_access_or_log
    (env : Env) (req : Request) (hijacker : bool) (s : State) :
  sections_ok access_or_log (trace_of (serve ServeHTTP env req hijacker s)) = true
  /\ sections_ok map_access_only
       (trace_of (serve handleRequestAndCache env req hijacker s)) = true
  /\ sections_ok map_access_only
       (trace_of (serve handleConnect env req hijacker s)) = true
  /\ sections_ok map_access_only (trace_of (resetRateLimiter_turn s)) = true.
Proof.
  split; [apply served_sections_ok|].
  split; [|split].
  - unfold serve, handleRequestAndCache. run_all; reflexivity.
  - unfold serve, handleConnect. run_all; reflexivity.
  - reflexivity.
Qed.

(** ** The theorems at sample inputs *)

Lemma rateLimiter_admits_up_to_ceiling_witness :
  (- 2 ^ 63 <= count_of near_ceiling (client_of sample_env sample_req))%Z
  /\ fst (fst (rateLimiter_gate sample_env sample_req near_ceiling)) = true
  /\ count_of (state_of (rateLimiter_gate sample_env sample_req near_ceiling))
              "10.0.0.1" = 60%Z.
Proof.
  assert (H : (- 2 ^ 63 <= count_of near_ceiling (client_of sample_env sample_req))%Z)
    by (vm_compute; discriminate).
  split; [exact H|].
  pose proof (rateLimiter_admits_up_to_ceiling handleRequestAndCache
                sample_env sample_req near_ceiling H) as (Hok & _ & Hcount & _).
  split; [exact Hok|exact Hcount].
Defined.

Lemma cache_hit_serves_stored_body_witness :
  url_Parse sample_env (absolute_URI sample_req) = Ok sample_url
  /\ cache warm !! cacheKey sample_url = Some "cached body"
  /\ rw_body (res (state_of (serve handleRequestAndCache sample_env sample_req true warm)))
     = "cached body"
  /\ rw_status (res (state_of (serve handleRequestAndCache sample_env sample_req true warm)))
     = StatusOK.
Proof.
  assert (H1 : url_Parse sample_env (absolute_URI sample_req) = Ok sample_url)
    by reflexivity.
  assert (H2 : cache warm !! cacheKey sample_url = Some "cached body")
    by (vm_compute; reflexivity).
  split; [exact H1|]. split; [exact H2|].
  pose proof (cache_hit_serves_stored_body sample_env sample_req true warm
                sample_url "cached body" H1 H2) as (Hbody & Hstatus & _).
  split; [exact Hbody|exact Hstatus].
Defined.

Lemma cache_miss_stores_and_relays_accepted_status_witness :
  (url_Parse sample_env (absolute_URI sample_req) = Ok sample_url
   /\ cache start !! cacheKey sample_url = None
   /\ http_NewRequest_err sample_env (r_Method sample_req) (URL_String sample_url)
      = None
   /\ client_Do sample_env (make_proxyReq sample_req sample_url) = Ok sample_resp
   /\ resp_Body sample_resp = Ok "not here"
   /\ valid_code (StatusCode sample_resp) = true
   /\ informational (StatusCode sample_resp) = false
   /\ cache (state_of (serve handleRequestAndCache sample_env sample_req true start))
      = <[cacheKey sample_url := "not here"]> (cache start)
   /\ rw_status (res (state_of
         (serve handleRequestAndCache sample_env sample_req true start)))
      = 404%Z
   /\ rw_body (res (state_of
         (serve handleRequestAndCache sample_env sample_req true start)))
      = "not here")
  /\ (client_Do odd_status_env (make_proxyReq sample_req sample_url) = Ok odd_resp
      /\ resp_Body odd_resp = Ok "odd"
      /\ valid_code (StatusCode odd_resp) = false
      /\ cache (state_of
            (serve handleRequestAndCache odd_status_env sample_req true start))
         = <[cacheKey sample_url := "odd"]> (cache start)
      /\ rw_wroteHeader (res (state_of
            (serve handleRequestAndCache odd_status_env sample_req true start)))
         = false
      /\ rw_body (res (state_of
            (serve handleRequestAndCache odd_status_env sample_req true start)))
         = EmptyString).
Proof.
  assert (H1 : url_Parse sample_env (absolute_URI sample_req) = Ok sample_url)
    by reflexivity.
  assert (H2 : cache start !! cacheKey sample_url = None)
    by (vm_compute; reflexivity).
  assert (H3 : http_NewRequest_err sample_env (r_Method sample_req)
                 (URL_String sample_url) = None) by reflexivity.
  assert (H4 : client_Do sample_env (make_proxyReq sample_req sample_url)
               = Ok sample_resp) by reflexivity.
  assert (H5 : resp_Body sample_resp = Ok "not here") by reflexivity.
  assert (H6 : valid_code (StatusCode sample_resp) = true) by reflexivity.
  assert (H7 : informational (StatusCode sample_resp) = false) by reflexivity.
  assert (H8 : client_Do odd_status_env (make_proxyReq sample_req sample_url)
               = Ok odd_resp) by reflexivity.
  assert (H9 : resp_Body odd_resp = Ok "odd") by reflexivity.
  assert (H10 : valid_code (StatusCode odd_resp) = false) by reflexivity.
  split.
  - repeat (split; [assumption|]).
    pose proof (cache_miss_stores_and_relays_accepted_status sample_env sample_req
                  true start sample_url sample_resp "not here" H1 H2 H3 H4 H5)
      as (_ & _ & Hcache & _ & _ & _ & _ & _ & _ & _ & Hrelay & _).
    destruct (Hrelay H6 H7) as (Hstatus & Hbody & _).
    split; [exact Hcache|]. split; [exact Hstatus|exact Hbody].
  - repeat (split; [assumption|]).
    pose proof (cache_miss_stores_and_relays_accepted_status odd_status_env
                  sample_req true start sample_url odd_resp "odd" H1 H2 H3 H8 H9)
      as (_ & _ & Hcache & _ & _ & _ & _ & _ & _ & _ & _ & Hpanic & _).
    destruct (Hpanic H10) as (Hwrote & Hbody & _).
    split; [exact Hcache|]. split; [exact Hwrote|exact Hbody].
Defined.

Lemma cacheKey_deterministic_fixed_length_witness :
  sample_url <> sample_url_omit
  /\ URL_String sample_url = URL_String sample_url_omit
  /\ cacheKey sample_url = cacheKey sample_url_omit.
Proof.
  split; [discriminate|].
  assert (H : URL_String sample_url = URL_String sample_url_omit) by reflexivity.
  split; [exact H|].
  exact (proj1 cacheKey_deterministic_fixed_length sample_url sample_url_omit H).
Defined.

Lemma failed_request_leaves_cache_untouched_witness :
  (- 2 ^ 63 <= count_of start (client_of unreachable_env sample_req)
   < maxRequestsPerMinute)%Z
  /\ fails unreachable_env sample_req start TransportFailure
  /\ rw_status (res (state_of
       (serve (rateLimiter handleRequestAndCache) unreachable_env sample_req true start)))
     = StatusInternalServerError
  /\ cache (state_of
       (serve (rateLimiter handleRequestAndCache) unreachable_env sample_req true start))
     = cache start.
Proof.
  assert (H1 : (- 2 ^ 63 <= count_of start (client_of unreachable_env sample_req)
                < maxRequestsPerMinute)%Z)
    by (vm_compute; split; [discriminate|reflexivity]).
  assert (H2 : fails unreachable_env sample_req start TransportFailure).
  { exists sample_url, "dial tcp: connection refused".
    repeat split; vm_compute; reflexivity. }
  split; [exact H1|]. split; [exact H2|].
  pose proof (failed_request_leaves_cache_untouched unreachable_env sample_req
                true start TransportFailure H1 H2) as (Hstatus & _ & Hcache & _).
  split; [exact Hstatus|exact Hcache].
Defined.

Lemma connect_unsupported_takeover_answers_200_witness :
  net_Dial_err sample_env (r_Host connect_req) = None
  /\ rw_status (res (state_of (serve handleConnect sample_env connect_req false start)))
     = StatusOK.
Proof.
  assert (H : net_Dial_err sample_env (r_Host connect_req) = None) by reflexivity.
  split; [exact H|].
  exact (proj1 (connect_unsupported_takeover_answers_200 sample_env connect_req start H)).
Defined.

Lemma counters_never_exceed_ceiling_witness :
  counters_ok (clients at_ceiling)
  /\ counters_ok (clients
       (run [OpRequest sample_env sample_req true; OpReset;
             OpRequest sample_env sample_req true] at_ceiling)).
Proof.
  assert (H : counters_ok (clients at_ceiling)).
  { unfold counters_ok, at_ceiling, set_clients. cbn [clients].
    apply map_Forall_singleton. vm_compute. split; discriminate. }
  split; [exact H|].
  exact (proj1 (counters_never_exceed_ceiling
                  [OpRequest sample_env sample_req true; OpReset;
                   OpRequest sample_env sample_req true] at_ceiling H)).
Defined.

(** ** Runs on sample inputs *)

(** Sixty-one requests of one client in one window: sixty pass. *)
Example window_of_61 :
  admissions sample_env (repeat sample_req 61) start = repeat true 60 ++ [false].
Proof. vm_compute. reflexivity. Qed.

(** A client at the ceiling is turned away, and let through after the
    reset. *)
Example rejected_then_admitted :
  fst (fst (rateLimiter_gate sample_env sample_req at_ceiling)) = false
  /\ fst (fst (rateLimiter_gate sample_env sample_req
                 (state_of (resetRateLimiter_turn at_ceiling)))) = true.
Proof. split; vm_compute; reflexivity. Qed.

(** A first request relays the upstream's 404 and stores the body; the
    second one for the same URL gets the same body with status 200 and
    without the upstream's headers. *)
Example second_request_is_a_hit :
  let r1 := serve handleRequestAndCache sample_env sample_req true start in
  let r2 := serve handleRequestAndCache sample_env sample_req true (state_of r1) in
  rw_status (res (state_of r1)) = 404%Z
  /\ rw_sent (res (state_of r1)) !! "Content-Type" = Some ["text/html"]
  /\ rw_body (res (state_of r2)) = rw_body (res (state_of r1))
  /\ rw_status (res (state_of r2)) = 200%Z
  /\ rw_sent (res (state_of r2)) !! "Content-Type" = None
  /\ existsb is_ClientDo (trace_of r2) = false.
Proof. vm_compute. repeat split; reflexivity. Qed.

(** The usual CONNECT request is answered 404; a GET for the path
    /CONNECT reaches the tunnel handler, which dials. *)
Example connect_request_not_found :
  rw_status (res (state_of (serve ServeHTTP sample_env connect_req true start)))
  = StatusNotFound
  /\ existsb is_Dial (trace_of (serve ServeHTTP sample_env get_CONNECT_req true start))
     = true.
Proof. vm_compute. split; reflexivity. Qed.

(** A request on a path that is not clean is redirected to the cleaned
    path with its query, before the rate limiter and the handlers. *)
Example unclean_path_is_redirected :
  let r := serve ServeHTTP cleaning_env unclean_req true start in
  rw_status (res (state_of r)) = 307%Z
  /\ rw_sent (res (state_of r)) !! "Location" = Some ["/a/b?x=1"]
  /\ rw_sent (res (state_of r)) !! "Content-Type" = Some ["text/html; charset=utf-8"]
  /\ clients (state_of r) = clients start
  /\ existsb is_reach (trace_of r) = false.
Proof. vm_compute. repeat split; reflexivity. Qed.

(** An upstream status that [WriteHeader] refuses: the body is stored and
    the client gets no answer; the next request for the URL is answered
    from the cache with status 200. *)
Example odd_status_poisons_cache :
  let r1 := serve ServeHTTP odd_status_env sample_req true start in
  let r2 := serve ServeHTTP odd_status_env sample_req true (state_of r1) in
  rw_wroteHeader (res (state_of r1)) = false
  /\ List.filter is_Panic (trace_of r1) = [EvPanic 42]
  /\ cache (state_of r1) !! cacheKey sample_url = Some "odd"
  /\ rw_status (res (state_of r2)) = 200%Z
  /\ rw_body (res (state_of r2)) = "odd".
Proof. vm_compute. repeat split; reflexivity. Qed.

(** * Further properties of the server and of the client *)

(** ** Clients are counted apart *)

Lemma rateLimiter_clients (next : Handler) env req s :
  (forall s1, clients (state_of (next env req s1)) = clients s1) ->
  clients (state_of (rateLimiter next env req s))
  = clients (state_of (rateLimiter_gate env req s)).
Proof.
  intros Hnext. rewrite rateLimiter_split. unfold bind.
  destruct (rateLimiter_gate env req s) as [[ok s1] t1].
  destruct ok.
  - specialize (Hnext s1). destruct (next env req s1) as [[u s2] t2].
    exact Hnext.
  - reflexivity.
Qed.

(** A served request leaves the counters alone or changes them as its
    gate does. *)
Lemma served_clients env req hijacker s :
  let s0 := set_res (fresh_writer hijacker) s in
  clients (state_of (serve ServeHTTP env req hijacker s)) = clients s
  \/ clients (state_of (serve ServeHTTP env req hijacker s))
     = clients (state_of (rateLimiter_gate env req s0)).
Proof.
  intros s0. unfold serve. fold s0. rewrite ServeHTTP_route.
  assert (Hroute :
    clients (state_of (route (r_URL_Path req) env req s0)) = clients s
    \/ clients (state_of (route (r_URL_Path req) env req s0))
       = clients (state_of (rateLimiter_gate env req s0))).
  { unfold route. destruct (String.eqb "/CONNECT" (r_URL_Path req)).
    - right. apply rateLimiter_clients. intros s1. apply handleConnect_keeps.
    - destruct (HasPrefix (r_URL_Path req) "/").
      + right. apply rateLimiter_clients. intros s1.
        apply handleRequestAndCache_keeps.
      + left. reflexivity. }
  destruct (String.eqb (r_Method req) "CONNECT"); [exact Hroute|].
  destruct (negb _); [left|exact Hroute].
  apply (RedirectHandler_keeps (cleanPath env (r_URL_Path req)) env req s0).
Qed.

Lemma gate_other_client env req s ip :
  client_of env req <> ip ->
  clients (state_of (rateLimiter_gate env req s)) !! ip = clients s !! ip.
Proof.
  intros Hne. destruct (gate_decision env req s) as [_ Hcl].
  cbn zeta in Hcl. rewrite Hcl.
  destruct (_ >=? _)%Z; [reflexivity|]. apply lookup_insert_ne, Hne.
Qed.

(** X1.  Whatever the server does with a request, the counter entry of
    every client other than the one the request comes from is left as it
    was: no entry is created, changed or removed for another client. *)
Theorem request_leaves_other_clients_alone
    (env : Env) (req : Request) (hijacker : bool) (s : State) (ip : string) :
  client_of env req <> ip ->
  clients (exec s (OpRequest env req hijacker)) !! ip = clients s !! ip
  /\ count_of (exec s (OpRequest env req hijacker)) ip = count_of s ip.
Proof.
  intros Hne.
  assert (H : clients (exec s (OpRequest env req hijacker)) !! ip = clients s !! ip).
  { cbn [exec].
    destruct (served_clients env req hijacker s) as [Hsame|Hgate].
    - rewrite Hsame. reflexivity.
    - rewrite Hgate. exact (gate_other_client env req _ ip Hne). }
  split; [exact H|]. unfold count_of. rewrite H. reflexivity.
Qed.

(** ** The quota over several windows *)

Lemma gate_count_of env req s ip :
  (- 2 ^ 63 <= count_of s ip <= maxRequestsPerMinute)%Z ->
  let r := rateLimiter_gate env req s in
  count_of (state_of r) ip
  = (count_of s ip
     + if fst (fst r) && bool_decide (client_of env req = ip) then 1 else 0)%Z.
Proof.
  intros Hc. cbn zeta.
  destruct (gate_decision env req s) as [Hok Hcl]. cbn zeta in Hok, Hcl.
  rewrite Hok. unfold count_of at 1. rewrite Hcl.
  destruct (Z.geb_spec (count_of s (client_of env req)) maxRequestsPerMinute)
    as [Hge|Hlt]; cbn [negb andb].
  - fold (count_of s ip). lia.
  - case_bool_decide as Hip.
    + subst ip. rewrite lookup_insert_eq. cbn.
      apply int_add_one. lia.
    + rewrite lookup_insert_ne by done. fold (count_of s ip). lia.
Qed.

Lemma passed_bound env ip l : forall s,
  (- 2 ^ 63 <= count_of s ip <= maxRequestsPerMinute)%Z ->
  (Z.of_nat (passed env ip l s) + count_of s ip
   <= maxRequestsPerMinute * (1 + Z.of_nat (window_ends l)))%Z.
Proof.
  induction l as [|[req|] l IH]; intros s Hc.
  - cbn [passed window_ends]. unfold maxRequestsPerMinute in *. lia.
  - cbn [passed window_ends].
    pose proof (gate_count_of env req (set_res (fresh_writer true) s) ip Hc) as Hcnt.
    cbn zeta in Hcnt.
    destruct (rateLimiter_gate env req (set_res (fresh_writer true) s))
      as [[ok s'] t] eqn:E.
    unfold state_of in Hcnt. cbn [fst snd] in Hcnt.
    rewrite count_of_set_res in Hcnt.
    assert (Hc' : (- 2 ^ 63 <= count_of s' ip <= maxRequestsPerMinute)%Z).
    { pose proof (gate_decision env req (set_res (fresh_writer true) s)) as [Hok _].
      cbn zeta in Hok. rewrite E in Hok. cbn [fst] in Hok.
      rewrite Hcnt. destruct ok; cbn [andb]; [|lia].
      case_bool_decide as Hip; [|lia]. subst ip.
      rewrite count_of_set_res in Hok.
      destruct (Z.geb_spec (count_of s (client_of env req)) maxRequestsPerMinute);
        [discriminate|lia]. }
    specialize (IH s' Hc'). rewrite Hcnt in IH.
    destruct (ok && bool_decide (client_of env req = ip)); lia.
  - cbn [passed window_ends].
    assert (H0 : count_of (state_of (resetRateLimiter_turn s)) ip = 0%Z).
    { unfold count_of. cbn. rewrite lookup_empty. reflexivity. }
    assert (Hc' : (- 2 ^ 63 <= count_of (state_of (resetRateLimiter_turn s)) ip
                   <= maxRequestsPerMinute)%Z)
      by (rewrite H0; unfold maxRequestsPerMinute; lia).
    specialize (IH _ Hc'). rewrite H0 in IH.
    unfold maxRequestsPerMinute in *. lia.
Qed.

(** X2.  However the requests and the window ends follow each other, a
    client gets at most 60 requests through the gate per window begun:
    with [k] window ends in the sequence, at most 60 * (k + 1), less
    what it had already used of the current window. *)
Theorem quota_bounds_passed_requests
    (env : Env) (ip : string) (l : list Arrival) (s : State) :
  (0 <= count_of s ip <= maxRequestsPerMinute)%Z ->
  (Z.of_nat (passed env ip l s)
   <= 60 * (1 + Z.of_nat (window_ends l)) - count_of s ip)%Z
  /\ (passed env ip l (set_clients ∅ s) <= 60 * (1 + window_ends l))%nat.
Proof.
  intros Hc. split.
  - pose proof (passed_bound env ip l s) as H.
    unfold maxRequestsPerMinute in *. lia.
  - pose proof (passed_bound env ip l (set_clients ∅ s)) as H.
    assert (H0 : count_of (set_clients ∅ s) ip = 0%Z).
    { unfold count_of. cbn. rewrite lookup_empty. reflexivity. }
    rewrite H0 in H. unfold maxRequestsPerMinute in *. lia.
Qed.

(** ** The tunnel handler, path by path *)

(** X3.  When the dial fails, [handleConnect] answers 503 with its
    message, logs the failure once, and does nothing else: no takeover,
    no copy, no connection to close, and the cache and the counters are
    untouched. *)
Theorem connect_dial_failure_answers_503
    (env : Env) (req : Request) (hijacker : bool) (s : State) (err : string) :
  net_Dial_err env (r_Host req) = Some err ->
  let r := serve handleConnect env req hijacker s in
  rw_status (res (state_of r)) = StatusServiceUnavailable
  /\ rw_body (res (state_of r)) = "Failed to connect to destination" +:+ nl
  /\ logger_lines (trace_of r)
     = [("Failed to connect to destination: %s, error: %v",
         [ArgS (r_Host req); ArgErr err])]
  /\ existsb is_Hijack (trace_of r) = false
  /\ existsb is_copy (trace_of r) = false
  /\ existsb (is_ConnClose destConn) (trace_of r) = false
  /\ existsb (is_ConnClose clientConn) (trace_of r) = false
  /\ cache (state_of r) = cache s
  /\ clients (state_of r) = clients s.
Proof.
  intros Hdial. unfold serve, handleConnect. rewrite Hdial. run_handler.
  destruct (logFile s); cbn; repeat split; reflexivity.
Qed.

(** X4.  When the dial succeeds and the takeover itself fails, the status
    the client was sent is the 200 written before the takeover: the 503 of
    the error answer is superfluous, only its text is written.  The
    failure is logged, the destination connection is closed once, and no
    copy is started. *)
Theorem connect_takeover_failure_keeps_200
    (env : Env) (req : Request) (s : State) (err : string) :
  net_Dial_err env (r_Host req) = None ->
  Hijack_err env = Some err ->
  let r := serve handleConnect env req true s in
  rw_status (res (state_of r)) = StatusOK
  /\ rw_body (res (state_of r)) = "Failed to hijack connection" +:+ nl
  /\ List.filter is_client_write (trace_of r)
     = [EvWriteHeader StatusOK; EvWriteHeader StatusServiceUnavailable;
        EvWrite ("Failed to hijack connection" +:+ nl)]
  /\ logger_lines (trace_of r)
     = [("Failed to hijack connection: %s, error: %v",
         [ArgS (r_Host req); ArgErr err])]
  /\ existsb is_copy (trace_of r) = false
  /\ List.filter (is_ConnClose destConn) (trace_of r) = [EvConnClose destConn]
  /\ existsb (is_ConnClose clientConn) (trace_of r) = false.
Proof.
  intros Hdial Hhj. unfold serve, handleConnect. rewrite Hdial. run_handler.
  rewrite Hhj. run_handler.
  destruct (logFile s); cbn; repeat split; reflexivity.
Qed.

(** X5.  When the dial and the takeover succeed, the handler writes
    status 200 and nothing else to the response, starts the copy from the
    client to the destination in its own goroutine, copies from the
    destination to the client, and afterwards closes the client
    connection and then the destination connection; it logs nothing and
    leaves the cache and the counters as they were. *)
Theorem connect_success_relays_both_ways
    (env : Env) (req : Request) (s : State) :
  net_Dial_err env (r_Host req) = None ->
  Hijack_err env = None ->
  let r := serve handleConnect env req true s in
  trace_of r
  = [EvDial (r_Host req); EvWriteHeader StatusOK; EvHijack;
     EvGoCopy destConn clientConn; EvCopy clientConn destConn;
     EvConnClose clientConn; EvConnClose destConn]
  /\ rw_status (res (state_of r)) = StatusOK
  /\ rw_body (res (state_of r)) = ""
  /\ cache (state_of r) = cache s
  /\ clients (state_of r) = clients s.
Proof.
  intros Hdial Hhj. unfold serve, handleConnect. rewrite Hdial. run_handler.
  rewrite Hhj. run_handler. repeat split; reflexivity.
Qed.


(** ** The proxy gateway, path by path *)

Lemma gateway_ops_filter env req hijacker s :
  List.filter is_gateway_op
    (trace_of (serve handleRequestAndCache env req hijacker s))
  = gateway_ops env req s.
Proof.
  unfold serve, handleRequestAndCache, gateway_ops, store_and_relay.
  run_all; reflexivity.
Qed.

(** X7.  On every path of [handleRequestAndCache] the operations on the
    cache and on the upstream are exactly these, in this order: the
    lookup, once the URL is parsed; on a miss, and when the outbound
    request could be built, one dispatch; only when the round trip
    succeeded, the read of the body; only when the read succeeded, the
    store of the body read, under the digest looked up; and the close of
    the body, exactly when the round trip succeeded.  The body is closed
    exactly when the close is the last step of the handler. *)
Theorem gateway_dispatches_once_and_closes_body
    (env : Env) (req : Request) (hijacker : bool) (s : State) :
  let tr := trace_of (serve handleRequestAndCache env req hijacker s) in
  List.filter is_gateway_op tr = gateway_ops env req s
  /\ existsb is_BodyClose tr = ends_with_close tr.
Proof.
  split; [apply gateway_ops_filter|].
  unfold serve, handleRequestAndCache, store_and_relay, ends_with_close.
  run_all; reflexivity.
Qed.

(** X8.  When the outbound request cannot be built, the client is
    answered 500 with the message of that case; nothing is sent
    upstream, nothing is logged, and the cache is left as it was. *)
Theorem request_construction_failure_answers_500
    (env : Env) (req : Request) (hijacker : bool) (s : State)
    (u : URL) (err : string) :
  url_Parse env (absolute_URI req) = Ok u ->
  cache s !! cacheKey u = None ->
  http_NewRequest_err env (r_Method req) (URL_String u) = Some err ->
  let r := serve handleRequestAndCache env req hijacker s in
  rw_status (res (state_of r)) = StatusInternalServerError
  /\ rw_body (res (state_of r)) = "Failed to create request" +:+ nl
  /\ existsb is_ClientDo (trace_of r) = false
  /\ existsb is_log (trace_of r) = false
  /\ cache (state_of r) = cache s.
Proof.
  intros Hparse Hmiss Hnew. unfold serve, handleRequestAndCache.
  rewrite Hparse. run_handler. rewrite Hmiss. run_handler.
  rewrite Hnew. run_handler. repeat split; reflexivity.
Qed.

(** ** The cache only grows *)

Lemma gate_cache env req s :
  cache (state_of (rateLimiter_gate env req s)) = cache s.
Proof.
  unfold rateLimiter_gate. run_handler. destruct (_ >=? _)%Z; run_handler;
    reflexivity.
Qed.

Lemma handleRequestAndCache_cache_grows env req s :
  cache s ⊆ cache (state_of (handleRequestAndCache env req s)).
Proof.
  unfold handleRequestAndCache.
  run_all; try reflexivity; apply insert_subseteq; assumption.
Qed.

Lemma rateLimiter_cache_grows (next : Handler) env req s :
  (forall s1, cache s1 ⊆ cache (state_of (next env req s1))) ->
  cache s ⊆ cache (state_of (rateLimiter next env req s)).
Proof.
  intros Hnext. rewrite rateLimiter_split. unfold bind.
  pose proof (gate_cache env req s) as Hgate.
  destruct (rateLimiter_gate env req s) as [[ok s1] t1].
  unfold state_of in Hgate. cbn in Hgate.
  destruct ok.
  - specialize (Hnext s1). destruct (next env req s1) as [[u s2] t2].
    unfold state_of in *. cbn in *. rewrite <- Hgate. exact Hnext.
  - unfold state_of. cbn. rewrite Hgate. reflexivity.
Qed.

Lemma exec_cache_grows s o : cache s ⊆ cache (exec s o).
Proof.
  destruct o as [env req hijacker|]; cbn [exec]; [|reflexivity].
  unfold serve. rewrite ServeHTTP_route.
  set (s0 := set_res (fresh_writer hijacker) s).
  change (cache s) with (cache s0).
  assert (Hroute : cache s0 ⊆ cache (state_of (route (r_URL_Path req) env req s0))).
  { unfold route. destruct (String.eqb "/CONNECT" (r_URL_Path req)).
    - apply rateLimiter_cache_grows. intros s1.
      destruct (handleConnect_keeps env req s1) as (_ & _ & Hc).
      rewrite Hc. reflexivity.
    - destruct (HasPrefix (r_URL_Path req) "/").
      + apply rateLimiter_cache_grows. intros s1.
        apply handleRequestAndCache_cache_grows.
      + reflexivity. }
  destruct (String.eqb (r_Method req) "CONNECT"); [exact Hroute|].
  destruct (negb _); [|exact Hroute].
  destruct (RedirectHandler_keeps (cleanPath env (r_URL_Path req)) env req s0)
    as (_ & Hc & _).
  cbn zeta in Hc. rewrite Hc. reflexivity.
Qed.

Lemma run_cache_grows ops : forall s, cache s ⊆ cache (run ops s).
Proof.
  unfold run. induction ops as [|o ops IH]; intros s; cbn [foldl].
  - reflexivity.
  - etrans; [apply (exec_cache_grows s o)|apply IH].
Qed.

(** X9.  Steps handled one after the other never remove a cache entry and
    never change one: what is stored under a digest stays there, through
    requests of any kind and through window resets. *)
Theorem cache_entries_persist (ops : list Op) (s : State) (key body : string) :
  cache s !! key = Some body ->
  cache (run ops s) !! key = Some body
  /\ cache s ⊆ cache (run ops s)
  /\ dom (cache s) ⊆ dom (cache (run ops s)).
Proof.
  intros Hkey. pose proof (run_cache_grows ops s) as Hsub.
  split; [eapply lookup_weaken; eassumption|].
  split; [exact Hsub|apply subseteq_dom, Hsub].
Qed.




(** ** The outbound request *)

(** X11.  The header map of every request that [handleRequestAndCache]
    dispatches upstream carries every value of every inbound header, in
    order, under the same key: nothing is dropped or added, hop-by-hop
    headers included; only a key without any value does not appear. *)
Theorem outbound_request_copies_inbound
    (env : Env) (req : Request) (hijacker : bool) (s : State) (p : ProxyRequest) :
  In (EvClientDo p) (trace_of (serve handleRequestAndCache env req hijacker s)) ->
  forall key,
    p_Header p !! key
    = match r_Header req !! key with
      | Some (v :: vs) => Some (v :: vs)
      | _ => None
      end.
Proof.
  intros Hin key.
  assert (Hops : In (EvClientDo p) (gateway_ops env req s)).
  { rewrite <- (gateway_ops_filter env req hijacker s).
    apply List.filter_In. split; [exact Hin|reflexivity]. }
  assert (Hp : exists u, p = make_proxyReq req u).
  { unfold gateway_ops in Hops.
    destruct (url_Parse env (absolute_URI req)) as [u|]; [|destruct Hops].
    destruct Hops as [Hops|Hops]; [discriminate|].
    destruct (cache s !! cacheKey u); [destruct Hops|].
    destruct (http_NewRequest_err env (r_Method req) (URL_String u));
      [destruct Hops|].
    destruct Hops as [Hops|Hops]; [exists u; congruence|].
    destruct (client_Do env (make_proxyReq req u)) as [resp|]; [|destruct Hops].
    destruct Hops as [Hops|Hops]; [discriminate|].
    destruct (resp_Body resp); cbn in Hops; intuition discriminate. }
  destruct Hp as [u ->]. unfold make_proxyReq. cbn [p_Header].
  apply copy_headers_fresh.
Qed.

Lemma prefix_append (p t : string) : String.prefix p (p +:+ t) = true.
Proof.
  induction p as [|a p IH]; [destruct t; reflexivity|].
  change (String a p +:+ t) with (String a (p +:+ t)).
  cbn [String.prefix].
  destruct (ascii_dec a a) as [_|Hne]; [exact IH|contradiction].
Qed.

(** X12.  The target handed to [url.Parse] always starts with http:// or
    https://: a request target that already starts with one of the two is
    kept as it is, every other is prefixed with http:// and the request's
    host; making a target absolute twice changes nothing more. *)
Theorem absolute_URI_is_absolute (req : Request) :
  HasPrefix (absolute_URI req) "http://" || HasPrefix (absolute_URI req) "https://"
  = true
  /\ absolute_URI (set_RequestURI (absolute_URI req) req) = absolute_URI req
  /\ absolute_URI req
     = (if HasPrefix (r_RequestURI req) "http://"
           || HasPrefix (r_RequestURI req) "https://"
        then r_RequestURI req
        else "http://" +:+ r_Host req +:+ r_RequestURI req).
Proof.
  assert (Habs : HasPrefix (absolute_URI req) "http://"
                 || HasPrefix (absolute_URI req) "https://" = true).
  { unfold absolute_URI.
    destruct (HasPrefix (r_RequestURI req) "http://") eqn:E1; cbn [negb andb].
    - rewrite E1. reflexivity.
    - destruct (HasPrefix (r_RequestURI req) "https://") eqn:E2; cbn [negb andb].
      + rewrite E1, E2. reflexivity.
      + unfold HasPrefix. rewrite prefix_append. reflexivity. }
  split; [exact Habs|]. split.
  - unfold absolute_URI at 1. cbn [set_RequestURI r_RequestURI r_Host].
    apply orb_true_iff in Habs as [H|H]; rewrite H; cbn [negb andb].
    + reflexivity.
    + rewrite andb_false_r. reflexivity.
  - unfold absolute_URI.
    destruct (HasPrefix (r_RequestURI req) "http://"),
             (HasPrefix (r_RequestURI req) "https://"); reflexivity.
Qed.

(** ** Logging and locking over a whole request *)

Ltac serve_paths req :=
  unfold serve; rewrite ServeHTTP_route; unfold route;
  destruct (String.eqb (r_Method req) "CONNECT");
    [|destruct (negb _)];
    try destruct (String.eqb "/CONNECT" (r_URL_Path req));
    try destruct (HasPrefix (r_URL_Path req) "/");
    unfold rateLimiter, handleRequestAndCache, handleConnect, NotFoundHandler,
      RedirectHandler.

(** X13.  Along every served request the log file receives exactly the
    lines that [logEvent] gives to the standard logger, in the same order
    and each with a line terminator appended to its format, when the log
    file is set; it receives nothing when it is not. *)
Theorem log_file_mirrors_logger
    (env : Env) (req : Request) (hijacker : bool) (s : State) :
  let tr := trace_of (serve ServeHTTP env req hijacker s) in
  file_lines tr
  = if logFile s
    then map (fun l => (fst l +:+ nl, snd l)) (logger_lines tr)
    else [].
Proof.
  cbn zeta. destruct (logFile s) eqn:Hlog;
    serve_paths req; run_handler; rewrite ?Hlog;
    repeat (run_handler; rewrite ?Hlog; try case_step); reflexivity.
Qed.

(** X14.  Along every served request, and along a turn of the reset loop,
    no lock is taken while it is already held, the only lock taken while
    another is held is [logFileMutex] (so [cacheMutex] and [clientsMux]
    are never held together and nothing is taken under [logFileMutex]),
    locks are released innermost first, and none is held at the end. *)
Theorem locks_nest_and_are_released
    (env : Env) (req : Request) (hijacker : bool) (s : State) :
  lock_order [] (trace_of (serve ServeHTTP env req hijacker s)) = Some []
  /\ lock_order [] (trace_of (resetRateLimiter_turn s)) = Some [].
Proof.
  split; [|reflexivity].
  serve_paths req; run_all; reflexivity.
Qed.


(** X16.  A request answered from the cache, or fetched from an upstream
    whose status [WriteHeader] accepts (100 to 999) and relayed, gets
    exactly one timing line, with the absolute target of the request, and
    it is the last line logged for it. *)
Theorem served_request_has_one_timing_line
    (env : Env) (req : Request) (hijacker : bool) (s : State) :
  succeeds env req s ->
  let tr := trace_of (serve handleRequestAndCache env req hijacker s) in
  timing_lines tr = [(served_format, [ArgS (absolute_URI req); ArgElapsed])]
  /\ last (logger_lines tr)
     = Some (served_format, [ArgS (absolute_URI req); ArgElapsed]).
Proof.
  intros (u & Hparse & Hcase). unfold serve, handleRequestAndCache.
  rewrite Hparse. run_handler.
  destruct Hcase
    as [[stored Hhit]|(Hmiss & Hnew & resp & body & Hdo & Hbody & Hvalid)].
  - rewrite Hhit. run_handler. destruct (logFile s); split; reflexivity.
  - rewrite Hmiss. run_handler. rewrite Hnew. run_handler.
    rewrite Hdo. run_handler. rewrite Hbody. unfold store_and_relay.
    run_handler. rewrite Hvalid. run_handler.
    destruct (logFile s); split; reflexivity.
Qed.

(** ** One counter per host *)

(** X17.  Two connections whose remote addresses split into the same host
    are one client to the rate limiter, whatever their ports: a request
    let through on the one uses up quota seen by the other. *)
Theorem connections_of_one_host_share_a_counter
    (env : Env) (req1 req2 : Request) (s : State) (host port1 port2 : string) :
  contains_colon (r_RemoteAddr req1) = true ->
  net_SplitHostPort env (r_RemoteAddr req1) = Ok (host, port1) ->
  contains_colon (r_RemoteAddr req2) = true ->
  net_SplitHostPort env (r_RemoteAddr req2) = Ok (host, port2) ->
  (- 2 ^ 63 <= count_of s host < maxRequestsPerMinute)%Z ->
  client_of env req1 = host
  /\ client_of env req2 = host
  /\ count_of (state_of (rateLimiter_gate env req1 s)) (client_of env req2)
     = (count_of s host + 1)%Z.
Proof.
  intros Hc1 Hs1 Hc2 Hs2 Hcount.
  assert (H1 : client_of env req1 = host)
    by (unfold client_of, extractIP; rewrite Hc1, Hs1; reflexivity).
  assert (H2 : client_of env req2 = host)
    by (unfold client_of, extractIP; rewrite Hc2, Hs2; reflexivity).
  split; [exact H1|]. split; [exact H2|].
  rewrite H2. rewrite <- H1 in Hcount |- *.
  destruct (gate_below env req1 s Hcount) as (_ & Hcl & _).
  unfold count_of at 1. rewrite Hcl, lookup_insert_eq. reflexivity.
Qed.

(** ** The load-generating client *)

(** X18.  On every path of the client's [makeRequest] the wait group is
    signalled exactly once, as the last step; exactly one line is
    printed; the proxy is contacted at most once; and the response body
    is closed exactly when a response was obtained. *)
Theorem makeRequest_signals_once (w : Client.World) :
  let tr := Client.makeRequest w in
  length (List.filter Client.is_Done tr) = 1
  /\ last tr = Some Client.WgDone
  /\ length (List.filter Client.is_Printf tr) = 1
  /\ (length (List.filter Client.is_ClientDo tr) <= 1)%nat
  /\ length (List.filter Client.is_BodyClose tr)
     = (if Client.answered w then 1 else 0).
Proof.
  unfold Client.makeRequest, Client.answered.
  destruct (Client.NewRequest_err w), (Client.Parse_err w), (Client.Do w);
    cbn; repeat split; try reflexivity; lia.
Qed.






(** ** Every request is answered, and counted before it is served *)


(** X21.  No request reaches the cache or the network without having
    been counted: along every served request, a cache lookup, a cache
    store, an upstream dispatch or a dial comes only after the store of
    the incremented count, one more than the count found, under the
    address of the request's client. *)
Theorem nothing_is_served_uncounted
    (env : Env) (req : Request) (hijacker : bool) (s : State) :
  let ip := client_of env req in
  precedes (is_count ip (int_add (count_of s ip) 1)) is_reach
    (trace_of (serve ServeHTTP env req hijacker s)) = true.
Proof.
  cbn zeta. unfold is_count, client_of, count_of.
  serve_paths req; unfold store_and_relay;
    repeat (run_handler; rewrite ?String.eqb_refl, ?Z.eqb_refl; cbn;
            try case_step);
    reflexivity.
Qed.

(** ** The further theorems at sample inputs *)

Lemma request_leaves_other_clients_alone_witness :
  client_of sample_env sample_req <> "10.0.0.2"
  /\ count_of (exec near_ceiling (OpRequest sample_env sample_req true)) "10.0.0.2"
     = count_of near_ceiling "10.0.0.2".
Proof.
  assert (H : client_of sample_env sample_req <> "10.0.0.2")
    by (vm_compute; discriminate).
  split; [exact H|].
  exact (proj2 (request_leaves_other_clients_alone sample_env sample_req true
                  near_ceiling "10.0.0.2" H)).
Defined.

Lemma quota_bounds_passed_requests_witness :
  (0 <= count_of start "10.0.0.1" <= maxRequestsPerMinute)%Z
  /\ (passed sample_env "10.0.0.1"
        (repeat (Arrives sample_req) 70 ++ WindowEnds :: repeat (Arrives sample_req) 70)
        (set_clients ∅ start)
      <= 60 * (1 + window_ends
           (repeat (Arrives sample_req) 70 ++ WindowEnds :: repeat (Arrives sample_req) 70)))%nat.
Proof.
  assert (H : (0 <= count_of start "10.0.0.1" <= maxRequestsPerMinute)%Z)
    by (vm_compute; split; discriminate).
  split; [exact H|].
  exact (proj2 (quota_bounds_passed_requests sample_env "10.0.0.1"
    (repeat (Arrives sample_req) 70 ++ WindowEnds :: repeat (Arrives sample_req) 70)
    start H)).
Defined.

Lemma connect_dial_failure_answers_503_witness :
  net_Dial_err unreachable_env (r_Host connect_req)
  = Some "dial tcp: connection refused"
  /\ rw_status (res (state_of (serve handleConnect unreachable_env connect_req true start)))
     = StatusServiceUnavailable.
Proof.
  assert (H : net_Dial_err unreachable_env (r_Host connect_req)
              = Some "dial tcp: connection refused") by reflexivity.
  split; [exact H|].
  exact (proj1 (connect_dial_failure_answers_503 unreachable_env connect_req
                  true start _ H)).
Defined.

Lemma connect_takeover_failure_keeps_200_witness :
  net_Dial_err no_takeover_env (r_Host connect_req) = None
  /\ Hijack_err no_takeover_env = Some "http: connection has been hijacked"
  /\ rw_status (res (state_of (serve handleConnect no_takeover_env connect_req true start)))
     = StatusOK.
Proof.
  assert (H1 : net_Dial_err no_takeover_env (r_Host connect_req) = None)
    by reflexivity.
  assert (H2 : Hijack_err no_takeover_env
               = Some "http: connection has been hijacked") by reflexivity.
  split; [exact H1|]. split; [exact H2|].
  exact (proj1 (connect_takeover_failure_keeps_200 no_takeover_env connect_req
                  start _ H1 H2)).
Defined.

Lemma connect_success_relays_both_ways_witness :
  net_Dial_err sample_env (r_Host connect_req) = None
  /\ Hijack_err sample_env = None
  /\ trace_of (serve handleConnect sample_env connect_req true start)
     = [EvDial "example.com:443"; EvWriteHeader StatusOK; EvHijack;
        EvGoCopy destConn clientConn; EvCopy clientConn destConn;
        EvConnClose clientConn; EvConnClose destConn].
Proof.
  assert (H1 : net_Dial_err sample_env (r_Host connect_req) = None) by reflexivity.
  assert (H2 : Hijack_err sample_env = None) by reflexivity.
  split; [exact H1|]. split; [exact H2|].
  exact (proj1 (connect_success_relays_both_ways sample_env connect_req start H1 H2)).
Defined.

Lemma request_construction_failure_answers_500_witness :
  url_Parse no_request_env (absolute_URI sample_req) = Ok sample_url
  /\ cache start !! cacheKey sample_url = None
  /\ http_NewRequest_err no_request_env (r_Method sample_req) (URL_String sample_url)
     = Some "net/http: invalid method"
  /\ rw_status (res (state_of
       (serve handleRequestAndCache no_request_env sample_req true start)))
     = StatusInternalServerError.
Proof.
  assert (H1 : url_Parse no_request_env (absolute_URI sample_req) = Ok sample_url)
    by reflexivity.
  assert (H2 : cache start !! cacheKey sample_url = None)
    by (vm_compute; reflexivity).
  assert (H3 : http_NewRequest_err no_request_env (r_Method sample_req)
                 (URL_String sample_url) = Some "net/http: invalid method")
    by reflexivity.
  repeat (split; [assumption|]).
  exact (proj1 (request_construction_failure_answers_500 no_request_env sample_req
                  true start sample_url _ H1 H2 H3)).
Defined.

Lemma cache_entries_persist_witness :
  cache warm !! cacheKey sample_url = Some "cached body"
  /\ cache (run [OpRequest sample_env sample_req true; OpReset;
                 OpRequest unreachable_env hop_req false] warm)
       !! cacheKey sample_url = Some "cached body".
Proof.
  assert (H : cache warm !! cacheKey sample_url = Some "cached body")
    by (vm_compute; reflexivity).
  split; [exact H|].
  exact (proj1 (cache_entries_persist
                  [OpRequest sample_env sample_req true; OpReset;
                   OpRequest unreachable_env hop_req false]
                  warm (cacheKey sample_url) "cached body" H)).
Defined.


Lemma outbound_request_copies_inbound_witness :
  In (EvClientDo (make_proxyReq hop_req sample_url))
     (trace_of (serve handleRequestAndCache sample_env hop_req true start))
  /\ p_Header (make_proxyReq hop_req sample_url) !! "Accept"
     = Some ["text/html"; "*/*"]
  /\ p_Header (make_proxyReq hop_req sample_url) !! "Connection"
     = Some ["keep-alive"]
  /\ p_Header (make_proxyReq hop_req sample_url) !! "X-Empty" = None.
Proof.
  assert (H : In (EvClientDo (make_proxyReq hop_req sample_url))
                (trace_of (serve handleRequestAndCache sample_env hop_req true start))).
  { vm_compute. do 3 right. left. reflexivity. }
  split; [exact H|].
  pose proof (outbound_request_copies_inbound sample_env hop_req true start
                (make_proxyReq hop_req sample_url) H) as Hcopy.
  split; [exact (Hcopy "Accept")|].
  split; [exact (Hcopy "Connection")|exact (Hcopy "X-Empty")].
Defined.


Lemma served_request_has_one_timing_line_witness :
  succeeds sample_env sample_req start
  /\ timing_lines
       (trace_of (serve handleRequestAndCache sample_env sample_req true start))
     = [(served_format, [ArgS (absolute_URI sample_req); ArgElapsed])].
Proof.
  assert (H : succeeds sample_env sample_req start).
  { exists sample_url. split; [reflexivity|]. right.
    split; [vm_compute; reflexivity|]. split; [reflexivity|].
    exists sample_resp, "not here". repeat split; reflexivity. }
  split; [exact H|].
  exact (proj1 (served_request_has_one_timing_line sample_env sample_req true start H)).
Defined.

Lemma connections_of_one_host_share_a_counter_witness :
  contains_colon (r_RemoteAddr sample_req) = true
  /\ net_SplitHostPort ports_env (r_RemoteAddr sample_req) = Ok ("10.0.0.1", "4242")
  /\ contains_colon (r_RemoteAddr second_conn_req) = true
  /\ net_SplitHostPort ports_env (r_RemoteAddr second_conn_req)
     = Ok ("10.0.0.1", "5353")
  /\ (- 2 ^ 63 <= count_of near_ceiling "10.0.0.1" < maxRequestsPerMinute)%Z
  /\ count_of (state_of (rateLimiter_gate ports_env sample_req near_ceiling))
              (client_of ports_env second_conn_req)
     = (count_of near_ceiling "10.0.0.1" + 1)%Z.
Proof.
  assert (H1 : contains_colon (r_RemoteAddr sample_req) = true) by reflexivity.
  assert (H2 : net_SplitHostPort ports_env (r_RemoteAddr sample_req)
               = Ok ("10.0.0.1", "4242")) by reflexivity.
  assert (H3 : contains_colon (r_RemoteAddr second_conn_req) = true)
    by reflexivity.
  assert (H4 : net_SplitHostPort ports_env (r_RemoteAddr second_conn_req)
               = Ok ("10.0.0.1", "5353")) by reflexivity.
  assert (H5 : (- 2 ^ 63 <= count_of near_ceiling "10.0.0.1"
                < maxRequestsPerMinute)%Z)
    by (vm_compute; split; [discriminate|reflexivity]).
  repeat (split; [assumption|]).
  exact (proj2 (proj2 (connections_of_one_host_share_a_counter ports_env
                  sample_req second_conn_req near_ceiling "10.0.0.1" "4242" "5353"
                  H1 H2 H3 H4 H5))).
Defined.


